(** * Login views of the storefront: macaroon credentials, backend calls
      and the login / callback / logout handlers

    Shallow embedding of [webapp/login/views.py].  Python values that
    travel through the handlers (decoded JSON bodies, session entries)
    are modelled by an inductive type of JSON-like values with Python's
    truthiness, membership and subscription written out, exceptions by
    an inductive type, and the handlers by a state-and-exception monad
    over the user session and a log of the calls made to the backend. *)

From Stdlib Require Import ZArith Ascii String List Lia.
From stdpp Require Import base option gmap strings list.

Local Set Warnings "-register-all".
Local Open Scope string_scope.
Local Open Scope Z_scope.

(** ** Python values *)

Module Py.

(** What [response.json()] can return, and what the session stores.
    A dict is kept as its item list; lookup takes the first binding.
    Numbers are integers: the views only test a number for truth. *)
Inductive value : Type :=
| VNone
| VBool (b : bool)
| VInt (z : Z)
| VStr (s : string)
| VList (l : list value)
| VDict (items : list (string * value)).

Definition of_opt_str (o : option string) : value :=
  match o with
  | Some s => VStr s
  | None => VNone
  end.

(** [bool(v)]: Python truthiness. *)
Definition truthy (v : value) : bool :=
  match v with
  | VNone => false
  | VBool b => b
  | VInt z => negb (z =? 0)
  | VStr s => negb (String.eqb s "")
  | VList l => match l with [] => false | _ => true end
  | VDict items => match items with [] => false | _ => true end
  end.

Definition truthy_opt_str (o : option string) : bool := truthy (of_opt_str o).

(** [d.get(k)] on an item list. *)
Fixpoint dict_get (k : string) (items : list (string * value)) : option value :=
  match items with
  | [] => None
  | (k', v) :: rest => if String.eqb k k' then Some v else dict_get k rest
  end.

(** [v == s] for a string literal [s]. *)
Definition eq_str (v : value) (s : string) : bool :=
  match v with
  | VStr s' => String.eqb s' s
  | _ => false
  end.

(** [needle in hay] on two strings: substring test. *)
Fixpoint substring_in (needle hay : string) : bool :=
  if String.prefix needle hay then true
  else match hay with
       | EmptyString => false
       | String _ rest => substring_in needle rest
       end.

Fixpoint chars (s : string) : list value :=
  match s with
  | EmptyString => []
  | String c rest => VStr (String c EmptyString) :: chars rest
  end.

End Py.
Export Py.

(** ** Exceptions *)

(** The exception classes the views raise or catch.  The API classes
    come from [webapp.api.exceptions]; [ValueError], [KeyError],
    [TypeError], [AttributeError] (with the name of the attribute asked
    for) and [NameError] (with the unbound name) are Python's own;
    [HTTPException] is what the framework's [abort] raises. *)
Inductive exn : Type :=
| ApiError (message : string)
| ApiResponseError (message : string) (status_code : Z)
| ApiResponseErrorList (message : string) (status_code : Z) (errors : value)
| ApiResponseDecodeError (message : string)
| ApiCircuitBreaker
| MacaroonRefreshRequired
| AgreementNotSigned
| MissingUsername
| ValueError (message : string)
| KeyError (key : string)
| TypeError (message : string)
| HTTPException (code : Z) (description : option string)
| AttributeError (name : string)
| NameError (name : string)
| OtherException (message : string).

(** [str(e)]: an API error prints its message. *)
Definition exn_str (e : exn) : string :=
  match e with
  | ApiError m | ApiResponseError m _ | ApiResponseErrorList m _ _
  | ApiResponseDecodeError m | ValueError m | TypeError m
  | OtherException m => m
  | KeyError k => "'" +:+ k +:+ "'"
  | AttributeError n => "'Blueprint' object has no attribute '" +:+ n +:+ "'"
  | NameError n => "name '" +:+ n +:+ "' is not defined"
  | HTTPException _ (Some d) => d
  | _ => ""
  end.

(** ** Computations that may raise *)

Inductive outcome (A : Type) : Type :=
| Ret (a : A)
| Raise (e : exn).
Arguments Ret {A} a.
Arguments Raise {A} e.

#[global] Instance outcome_ret : MRet outcome := fun A a => Ret a.
#[global] Instance outcome_bind : MBind outcome := fun A B f m =>
  match m with
  | Ret a => f a
  | Raise e => Raise e
  end.

(** [needle in v]: membership as Python dispatches it on the container. *)
Definition py_contains (needle : string) (v : value) : outcome bool :=
  match v with
  | VDict items => Ret (bool_decide (is_Some (dict_get needle items)))
  | VList l => Ret (existsb (fun x => eq_str x needle) l)
  | VStr s => Ret (substring_in needle s)
  | _ => Raise (TypeError "argument is not iterable")
  end.

(** [v[k]] for a string key [k]. *)
Definition py_getitem (v : value) (k : string) : outcome value :=
  match v with
  | VDict items =>
      match dict_get k items with
      | Some x => Ret x
      | None => Raise (KeyError k)
      end
  | VList _ => Raise (TypeError "list indices must be integers or slices, not str")
  | VStr _ => Raise (TypeError "string indices must be integers")
  | _ => Raise (TypeError "object is not subscriptable")
  end.

(** [for x in v]: the items the loop visits. *)
Definition py_iter (v : value) : outcome (list value) :=
  match v with
  | VList l => Ret l
  | VDict items => Ret (map (fun kv => VStr (fst kv)) items)
  | VStr s => Ret (chars s)
  | _ => Raise (TypeError "object is not iterable")
  end.

(** ** Requests and responses of the backend session *)

Record upload : Type := {
  filename : string;
  stream : string;
  mimetype : string
}.

Inductive files_arg : Type :=
| FilesList (l : list (string * (string * string * string)))
| FilesInfo (info : string * value).

Record Request : Type := {
  req_method : option string;
  req_url : string;
  req_headers : gmap string string;
  req_json : option value;
  req_data : option value;
  req_files : option files_arg
}.

(** The parts of a [requests] response the views read: [status_code],
    [ok], [headers], and [json()], which either raises [ValueError]
    (left, with its message) or returns the decoded body. *)
Record Response : Type := {
  status_code : Z;
  ok : bool;
  headers : gmap string string;
  json : string + value
}.

Definition response_json (r : Response) : outcome value :=
  match json r with
  | inl msg => Raise (ValueError msg)
  | inr body => Ret body
  end.

(** ** Shared response processing *)

(** The loop of [process_response] over the error list. *)
Fixpoint scan_error_list (errors : list value) : outcome unit :=
  match errors with
  | [] => Ret tt
  | error :: rest =>
      code ← py_getitem error "code";
      if eq_str code "user-not-ready" then
        message ← py_getitem error "message";
        signed ← py_contains "has not signed agreement" message;
        if (signed : bool) then Raise AgreementNotSigned
        else
          message' ← py_getitem error "message";
          missing ← py_contains "missing store username" message';
          if (missing : bool) then Raise MissingUsername
          else scan_error_list rest
      else scan_error_list rest
  end.

Definition process_response (response : Response) : outcome value :=
  match json response with
  | inl decode_error =>
      Raise (ApiResponseDecodeError ("JSON decoding failed: " +:+ decode_error))
  | inr body =>
      if negb (ok response) then
        has_list ← py_contains "error_list" body;
        if (has_list : bool) then
          error_list ← py_getitem body "error_list";
          errors ← py_iter error_list;
          scan_error_list errors;;
          error_list' ← py_getitem body "error_list";
          Raise (ApiResponseErrorList "The api returned a list of errors"
                   (status_code response) error_list')
        else if negb (truthy body) then
          Raise (ApiResponseError "Unknown error from api" (status_code response))
        else Ret body
      else Ret body
  end.

(** ** State: the user session and the log of backend calls *)

Inductive call : Type :=
| IssueMacaroon
| Api (req : Request).

Record world : Type := {
  session : gmap string value;
  backend_log : list call
}.

(** Handlers and client operations: state passing with exceptions.
    The state survives a raise, as the session object does. *)
Definition M (A : Type) : Type := world -> outcome A * world.

#[global] Instance M_ret : MRet M := fun A a w => (Ret a, w).
#[global] Instance M_bind : MBind M := fun A B f m w =>
  match m w with
  | (Ret a, w') => f a w'
  | (Raise e, w') => (Raise e, w')
  end.

Definition lift {A} (o : outcome A) : M A := fun w => (o, w).
Definition raise {A} (e : exn) : M A := fun w => (Raise e, w).

(** [try: body  except ...: handler]; a handler re-raises what no
    clause matches. *)
Definition try_except {A} (body : M A) (handler : exn -> M A) : M A := fun w =>
  match body w with
  | (Ret a, w') => (Ret a, w')
  | (Raise e, w') => handler e w'
  end.

Definition get_session : M (gmap string value) := fun w => (Ret (session w), w).

(** [session[k] = v] *)
Definition session_set (k : string) (v : value) : M unit := fun w =>
  (Ret tt, {| session := <[k := v]> (session w); backend_log := backend_log w |}).

(** [session[k]] *)
Definition session_getitem (s : gmap string value) (k : string) : outcome value :=
  match s !! k with
  | Some v => Ret v
  | None => Raise (KeyError k)
  end.

(** The network as one request sees it: what the backend session
    answers to a request, and what macaroon issuance answers. *)
Record Net : Type := {
  api_session : Request -> outcome Response;
  request_macaroon : outcome string
}.

Definition api_request (net : Net) (req : Request) : M Response := fun w =>
  (api_session net req,
   {| session := session w; backend_log := backend_log w ++ [Api req] |}).

Definition call_request_macaroon (net : Net) : M string := fun w =>
  (request_macaroon net,
   {| session := session w; backend_log := backend_log w ++ [IssueMacaroon] |}).

(** Names the module uses without defining them: URL constants and
    templates (a template is the function its [format] call computes),
    and the pure helpers of [authentication];
    [bind_authorization] is [authentication.get_authorization_header]
    and [LOGIN_URL_env] the environment variable [LOGIN_URL], if set. *)
Record Env : Type := {
  ACCOUNT_URL : string;
  AGREEMENT_URL : string;
  SNAP_PUB_METRICS_URL : string;
  PUB_METRICS_QUERY_HEADERS : gmap string string;
  REGISTER_NAME_URL : string;
  REGISTER_NAME_DISPUTE_URL : string;
  SNAP_INFO_URL : string -> string;
  METADATA_QUERY_URL : string -> string;
  SCREENSHOTS_QUERY_URL : string -> string;
  REVISION_HISTORY_URL : string -> string;
  SNAP_RELEASE_HISTORY_URL : string -> Z -> string;
  SNAP_RELEASE : string;
  CLOSE_CHANNEL : string -> string;
  is_macaroon_expired : gmap string string -> bool;
  bind_authorization : value -> value -> outcome string;
  get_caveat_id : string -> outcome string;
  LOGIN_URL_env : option string
}.

(** ** The authenticated API client *)

Section Client.

Context (env : Env) (net : Net).

Definition get_authorization_header (session : gmap string value)
  : outcome (gmap string string) :=
  root ← session_getitem session "macaroon_root";
  discharge ← session_getitem session "macaroon_discharge";
  authorization ← bind_authorization env root discharge;
  Ret ({[ "Authorization" := authorization ]} : gmap string string).

Definition send (method : option string) (url : string)
    (hs : gmap string string) (body data : option value)
    (files : option files_arg) : M Response :=
  api_request net {| req_method := method; req_url := url; req_headers := hs;
                     req_json := body; req_data := data; req_files := files |}.

Definition get_account (session : gmap string value) : M value :=
  hs ← lift (get_authorization_header session);
  response ← send (Some "GET") (ACCOUNT_URL env) hs None None None;
  if is_macaroon_expired env (headers response) then raise MacaroonRefreshRequired
  else lift (process_response response).

Definition get_agreement (session : gmap string value) : M value :=
  hs ← lift (get_authorization_header session);
  agreement_response ← send (Some "GET") (AGREEMENT_URL env) hs None None None;
  if is_macaroon_expired env (headers agreement_response)
  then raise MacaroonRefreshRequired
  else lift (response_json agreement_response).

Definition post_agreement (session : gmap string value) (agreed : value) : M value :=
  hs ← lift (get_authorization_header session);
  let json := VDict [("latest_tos_accepted", agreed)] in
  agreement_response ←
    send (Some "POST") (AGREEMENT_URL env) hs (Some json) None None;
  if is_macaroon_expired env (headers agreement_response)
  then raise MacaroonRefreshRequired
  else lift (process_response agreement_response).

Definition post_username (session : gmap string value) (username : value) : M value :=
  hs ← lift (get_authorization_header session);
  let json := VDict [("short_namespace", username)] in
  username_response ←
    send (Some "PATCH") (ACCOUNT_URL env) hs (Some json) None None;
  if is_macaroon_expired env (headers username_response)
  then raise MacaroonRefreshRequired
  else if status_code username_response =? 204 then mret (VDict [])
  else lift (process_response username_response).

Definition get_publisher_metrics (session : gmap string value) (json : value)
  : M value :=
  let authed_metrics_headers := PUB_METRICS_QUERY_HEADERS env in
  hs ← lift (get_authorization_header session);
  auth_header ← lift (match hs !! "Authorization" with
                      | Some a => Ret a
                      | None => Raise (KeyError "Authorization")
                      end);
  let authed_metrics_headers :=
    <["Authorization" := auth_header]> authed_metrics_headers in
  metrics_response ←
    send (Some "POST") (SNAP_PUB_METRICS_URL env) authed_metrics_headers
         (Some json) None None;
  if is_macaroon_expired env (headers metrics_response)
  then raise MacaroonRefreshRequired
  else lift (process_response metrics_response).

Definition post_register_name (session : gmap string value) (snap_name : string)
    (registrant_comment : option string) (is_private : bool)
    (store : option string) : M value :=
  let json := [("snap_name", VStr snap_name)] in
  let json := if truthy_opt_str registrant_comment
              then (json ++ [("registrant_comment", of_opt_str registrant_comment)])%list
              else json in
  let json := if is_private then (json ++ [("is_private", VBool is_private)])%list
              else json in
  let json := if truthy_opt_str store then (json ++ [("store", of_opt_str store)])%list
              else json in
  hs ← lift (get_authorization_header session);
  response ←
    send (Some "POST") (REGISTER_NAME_URL env) hs (Some (VDict json)) None None;
  if is_macaroon_expired env (headers response) then raise MacaroonRefreshRequired
  else lift (process_response response).

Definition post_register_name_dispute (session : gmap string value)
    (snap_name claim_comment : string) : M value :=
  let json := VDict [("snap_name", VStr snap_name); ("comment", VStr claim_comment)] in
  hs ← lift (get_authorization_header session);
  response ←
    send (Some "POST") (REGISTER_NAME_DISPUTE_URL env) hs (Some json) None None;
  if is_macaroon_expired env (headers response) then raise MacaroonRefreshRequired
  else lift (process_response response).

Definition get_snap_info (snap_name : string) (session : gmap string value)
  : M value :=
  hs ← lift (get_authorization_header session);
  response ← send (Some "GET") (SNAP_INFO_URL env snap_name) hs None None None;
  if is_macaroon_expired env (headers response) then raise MacaroonRefreshRequired
  else lift (process_response response).

Definition get_snap_id (snap_name : string) (session : gmap string value)
  : M value :=
  snap_info ← get_snap_info snap_name session;
  lift (py_getitem snap_info "snap_id").

Definition snap_metadata (snap_id : string) (session : gmap string value)
    (json : option value) : M value :=
  let method := match json with Some _ => Some "PUT" | None => None end in
  hs ← lift (get_authorization_header session);
  metadata_response ←
    send method (METADATA_QUERY_URL env snap_id) hs json None None;
  if is_macaroon_expired env (headers metadata_response)
  then raise MacaroonRefreshRequired
  else lift (process_response metadata_response).

Definition snap_screenshots (snap_id : string) (session : gmap string value)
    (data : option value) (files : option (list upload)) : M value :=
  hs ← lift (get_authorization_header session);
  let hs := <["Accept" := "application/json"]> hs in
  '(method, data, files_array) ← lift (
    if from_option truthy false data then
      if match files with Some (_ :: _) => true | _ => false end then
        Ret (Some "PUT", data,
             Some (FilesList
                     (map (fun f => (filename f, (filename f, stream f, mimetype f)))
                          (default [] files))))
      else
        info ← py_getitem (default VNone data) "info";
        Ret (Some "PUT", None, Some (FilesInfo ("", info)))
    else Ret (Some "GET", data, None));
  screenshot_response ←
    send method (SCREENSHOTS_QUERY_URL env snap_id) hs None data files_array;
  if is_macaroon_expired env (headers screenshot_response)
  then raise MacaroonRefreshRequired
  else lift (process_response screenshot_response).

Definition snap_revision_history (session : gmap string value) (snap_id : string)
  : M value :=
  hs ← lift (get_authorization_header session);
  response ← send (Some "GET") (REVISION_HISTORY_URL env snap_id) hs None None None;
  if is_macaroon_expired env (headers response) then raise MacaroonRefreshRequired
  else lift (process_response response).

Definition snap_release_history (session : gmap string value) (snap_name : string)
    (page : Z) : M value :=
  hs ← lift (get_authorization_header session);
  response ←
    send (Some "GET") (SNAP_RELEASE_HISTORY_URL env snap_name page) hs
         None None None;
  if is_macaroon_expired env (headers response) then raise MacaroonRefreshRequired
  else lift (process_response response).

Definition post_snap_release (session : gmap string value) (snap_name : string)
    (json : value) : M value :=
  hs ← lift (get_authorization_header session);
  response ← send (Some "POST") (SNAP_RELEASE env) hs (Some json) None None;
  if is_macaroon_expired env (headers response) then raise MacaroonRefreshRequired
  else lift (process_response response).

Definition post_close_channel (session : gmap string value) (snap_id : string)
    (json : value) : M value :=
  let url := CLOSE_CHANNEL env snap_id in
  hs ← lift (get_authorization_header session);
  response ← send (Some "POST") url hs (Some json) None None;
  if is_macaroon_expired env (headers response) then raise MacaroonRefreshRequired
  else lift (process_response response).

(** Every operation of the client, with its arguments. *)
Inductive operation : Type :=
| GetAccount
| GetAgreement
| PostAgreement (agreed : value)
| PostUsername (username : value)
| GetPublisherMetrics (json : value)
| PostRegisterName (snap_name : string) (registrant_comment : option string)
    (is_private : bool) (store : option string)
| PostRegisterNameDispute (snap_name claim_comment : string)
| GetSnapInfo (snap_name : string)
| GetSnapId (snap_name : string)
| SnapMetadata (snap_id : string) (json : option value)
| SnapScreenshots (snap_id : string) (data : option value)
    (files : option (list upload))
| SnapRevisionHistory (snap_id : string)
| SnapReleaseHistory (snap_name : string) (page : Z)
| PostSnapRelease (snap_name : string) (json : value)
| PostCloseChannel (snap_id : string) (json : value).

Definition perform (op : operation) (session : gmap string value) : M value :=
  match op with
  | GetAccount => get_account session
  | GetAgreement => get_agreement session
  | PostAgreement agreed => post_agreement session agreed
  | PostUsername username => post_username session username
  | GetPublisherMetrics json => get_publisher_metrics session json
  | PostRegisterName n c p s => post_register_name session n c p s
  | PostRegisterNameDispute n c => post_register_name_dispute session n c
  | GetSnapInfo n => get_snap_info n session
  | GetSnapId n => get_snap_id n session
  | SnapMetadata i j => snap_metadata i session j
  | SnapScreenshots i d f => snap_screenshots i session d f
  | SnapRevisionHistory i => snap_revision_history session i
  | SnapReleaseHistory n p => snap_release_history session n p
  | PostSnapRelease n j => post_snap_release session n j
  | PostCloseChannel i j => post_close_channel session i j
  end.

(** *** The common shape of the operations *)

Definition logged (w : world) (req : Request) : world :=
  {| session := session w; backend_log := backend_log w ++ [Api req] |}.

(** The shape every operation has: build one request (which may raise
    before anything is sent), send it, check expiry, then treat the
    response without touching the state. *)
Definition exchange (prepare : outcome Request)
    (treat : Response -> outcome value) : M value :=
  req ← lift prepare;
  response ← api_request net req;
  if is_macaroon_expired env (headers response) then raise MacaroonRefreshRequired
  else lift (treat response).

Definition request_with (s : gmap string value) (method : option string)
    (url : string) (body : option value) : outcome Request :=
  hs ← get_authorization_header s;
  Ret {| req_method := method; req_url := url; req_headers := hs;
         req_json := body; req_data := None; req_files := None |}.

(** What each operation does with a response that is not expired. *)
Definition treatment (op : operation) : Response -> outcome value :=
  match op with
  | GetAgreement => response_json
  | PostUsername _ =>
      fun r => if status_code r =? 204 then Ret (VDict []) else process_response r
  | GetSnapId _ =>
      fun r => snap_info ← process_response r; py_getitem snap_info "snap_id"
  | _ => process_response
  end.

(** The request each operation builds before it sends anything. *)
Definition prepare (op : operation) (s : gmap string value) : outcome Request :=
  match op with
  | GetAccount => request_with s (Some "GET") (ACCOUNT_URL env) None
  | GetAgreement => request_with s (Some "GET") (AGREEMENT_URL env) None
  | PostAgreement agreed =>
      request_with s (Some "POST") (AGREEMENT_URL env)
        (Some (VDict [("latest_tos_accepted", agreed)]))
  | PostUsername username =>
      request_with s (Some "PATCH") (ACCOUNT_URL env)
        (Some (VDict [("short_namespace", username)]))
  | GetPublisherMetrics json =>
      hs ← get_authorization_header s;
      auth_header ← match hs !! "Authorization" with
                    | Some a => Ret a
                    | None => Raise (KeyError "Authorization")
                    end;
      Ret {| req_method := Some "POST"; req_url := SNAP_PUB_METRICS_URL env;
             req_headers := <["Authorization" := auth_header]>
                              (PUB_METRICS_QUERY_HEADERS env);
             req_json := Some json; req_data := None; req_files := None |}
  | PostRegisterName snap_name registrant_comment is_private store =>
      request_with s (Some "POST") (REGISTER_NAME_URL env)
        (Some (VDict
           (let json := [("snap_name", VStr snap_name)] in
            let json :=
              if truthy_opt_str registrant_comment
              then (json ++ [("registrant_comment",
                              of_opt_str registrant_comment)])%list
              else json in
            let json :=
              if is_private
              then (json ++ [("is_private", VBool is_private)])%list
              else json in
            if truthy_opt_str store
            then (json ++ [("store", of_opt_str store)])%list
            else json)))
  | PostRegisterNameDispute snap_name claim_comment =>
      request_with s (Some "POST") (REGISTER_NAME_DISPUTE_URL env)
        (Some (VDict [("snap_name", VStr snap_name);
                      ("comment", VStr claim_comment)]))
  | GetSnapInfo snap_name | GetSnapId snap_name =>
      request_with s (Some "GET") (SNAP_INFO_URL env snap_name) None
  | SnapMetadata snap_id json =>
      request_with s (match json with Some _ => Some "PUT" | None => None end)
        (METADATA_QUERY_URL env snap_id) json
  | SnapScreenshots snap_id data files =>
      hs ← get_authorization_header s;
      '(method, data', files_array) ←
        (if from_option truthy false data then
           if match files with Some (_ :: _) => true | _ => false end then
             Ret (Some "PUT", data,
                  Some (FilesList
                          (map (fun f => (filename f,
                                          (filename f, stream f, mimetype f)))
                               (default [] files))))
           else
             info ← py_getitem (default VNone data) "info";
             Ret (Some "PUT", None, Some (FilesInfo ("", info)))
         else Ret (Some "GET", data, None));
      Ret {| req_method := method; req_url := SCREENSHOTS_QUERY_URL env snap_id;
             req_headers := <["Accept" := "application/json"]> hs;
             req_json := None; req_data := data'; req_files := files_array |}
  | SnapRevisionHistory snap_id =>
      request_with s (Some "GET") (REVISION_HISTORY_URL env snap_id) None
  | SnapReleaseHistory snap_name page =>
      request_with s (Some "GET") (SNAP_RELEASE_HISTORY_URL env snap_name page) None
  | PostSnapRelease _ json =>
      request_with s (Some "POST") (SNAP_RELEASE env) (Some json)
  | PostCloseChannel snap_id json =>
      request_with s (Some "POST") (CLOSE_CHANNEL env snap_id) (Some json)
  end.

End Client.

(** ** URL escaping: [urllib.parse.quote] *)

Definition hex_digit (n : N) : ascii :=
  ascii_of_N (if (n <? 10)%N then 48 + n else 55 + n)%N.

(** ["%{:02X}".format(b)] *)
Definition percent_encode (c : ascii) : string :=
  let n := N_of_ascii c in
  String "%" (String (hex_digit (n / 16)) (String (hex_digit (n mod 16)) "")).

(** Letters, digits and [_.-~] are never escaped. *)
Definition always_safe (c : ascii) : bool :=
  let n := N_of_ascii c in
  ((65 <=? n) && (n <=? 90) || (97 <=? n) && (n <=? 122)
   || (48 <=? n) && (n <=? 57)
   || (n =? 95) || (n =? 46) || (n =? 45) || (n =? 126))%N.

Fixpoint mem_ascii (c : ascii) (s : string) : bool :=
  match s with
  | EmptyString => false
  | String c' rest => Ascii.eqb c c' || mem_ascii c rest
  end.

(** [quote(string, safe=safe)] on the UTF-8 bytes of [string]. *)
Fixpoint quote (s : string) (safe : string) : string :=
  match s with
  | EmptyString => EmptyString
  | String c rest =>
      (if always_safe c || (mem_ascii c safe && (N_of_ascii c <? 128)%N)
       then String c EmptyString
       else percent_encode c) +:+ quote rest safe
  end.

(** ** Login, provider callback and logout *)

Definition LP_CANONICAL_TEAM : string := "canonical".

(** [os.getenv("LOGIN_URL", "https://login.ubuntu.com")] *)
Definition LOGIN_URL (env : Env) : string :=
  default "https://login.ubuntu.com" (LOGIN_URL_env env).

(** Modelled from the spec: [authentication.is_authenticated] is not among
    the sources; the session is authenticated exactly when [openid] is
    present and non-empty. *)
Definition is_authenticated (s : gmap string value) : bool :=
  match s !! "openid" with
  | Some v => truthy v
  | None => false
  end.

(** Modelled from the spec: [authentication.empty_session] is not among
    the sources; it clears all session fields. *)
Definition empty_session : M unit := fun w =>
  (Ret tt, {| session := ∅; backend_log := backend_log w |}).

(** The extension requests sent along to the identity provider. *)
Inductive extension_request : Type :=
| MacaroonRequest (caveat_id : string)
| TeamsRequest (query_membership : list string).

(** What a handler returns to the framework. *)
Inductive reply : Type :=
| Redirect (location : string)
| TryLogin (identity_url : string) (ask_for ask_for_optional : list string)
    (extensions : list extension_request).

(** [abort(code, description)] raises the framework's HTTP exception. *)
Definition abort {A} (code : Z) (description : option string) : M A :=
  raise (HTTPException code description).

(** The identity provider's response.  [open_id] is configured with the
    macaroon and teams response classes, so both extension objects are
    there: [ext_macaroon_discharge] is [extensions["macaroon"].discharge]
    and [ext_lp_is_member] is [extensions["lp"].is_member]. *)
Record OpenIDResponse : Type := {
  identity_url : option string;
  nickname : option string;
  fullname : option string;
  image : option string;
  email : option string;
  ext_macaroon_discharge : option string;
  ext_lp_is_member : list string
}.

(** The route of the [logout] view: [url_for(".logout")]. *)
Definition url_for_logout : string := "/logout".

(** [login] is the [flask.Blueprint] made on line 12 of the views, not
    the [flask] module, through which line 298 reaches the session and
    line 299 redirects.  The views ask [login] for [session], [request],
    [redirect], [abort] and [url_for]; a blueprint has none of these, so
    each such access raises [AttributeError] before anything is done
    with the attribute. *)
Definition login_getattr (name : string) : M unit :=
  if existsb (String.eqb name) ["session"; "request"; "redirect"; "abort"; "url_for"]
  then raise (AttributeError name)
  else mret tt.

(** [dashboard] and [logic] are bound nowhere in the module: evaluating
    either name raises [NameError]. *)
Definition unbound_name {A} (name : string) : M A := raise (NameError name).

Section Handlers.

Context (env : Env).

(** Modelled from the spec: the class declarations of
    [webapp.api.exceptions] are not among the sources.  The error kinds
    of the spec are classes under [ApiError]; [ApiResponseErrorList]
    carries a status code as an [ApiResponseError] does and is caught as
    one.  [isinstance_ApiResponseError] gives the status code of an
    instance. *)
Definition isinstance_ApiResponseError (e : exn) : option Z :=
  match e with
  | ApiResponseError _ status | ApiResponseErrorList _ status _ => Some status
  | _ => None
  end.

Definition isinstance_ApiCircuitBreaker (e : exn) : bool :=
  match e with
  | ApiCircuitBreaker => true
  | _ => false
  end.

Definition isinstance_ApiError (e : exn) : bool :=
  match e with
  | ApiError _ | ApiResponseError _ _ | ApiResponseErrorList _ _ _
  | ApiResponseDecodeError _ | ApiCircuitBreaker | MacaroonRefreshRequired
  | AgreementNotSigned | MissingUsername => true
  | _ => false
  end.

(** The except clauses of [login_handler], in their order.  Each clause
    that answers does so through [login]: the attribute is looked up
    before its arguments are evaluated. *)
Definition login_handler_except (e : exn) : M reply :=
  match isinstance_ApiResponseError e with
  | Some status =>
      if status =? 401 then
        login_getattr "redirect";;
        login_getattr "url_for";;
        mret (Redirect url_for_logout)
      else
        login_getattr "abort";;
        abort 502 (Some (exn_str e))
  | None =>
      if isinstance_ApiCircuitBreaker e then
        login_getattr "abort";;
        abort 503 None
      else if isinstance_ApiError e then
        login_getattr "abort";;
        abort 502 (Some (exn_str e))
      else raise e
  end.

(** The authenticated short cut goes through [flask.session] and
    [flask.redirect]; the store of the root, on line 314, goes through
    [login.session].  Line 315, a lone dot, comes after that store. *)
Definition login_handler (net : Net) (next_url : string) : M reply :=
  s ← get_session;
  if is_authenticated s then mret (Redirect next_url)
  else
    acquired ← try_except
      (root ← call_request_macaroon net; mret (inl root))
      (fun e => early ← login_handler_except e; mret (inr early));
    match acquired with
    | inr early => mret early
    | inl root =>
        caveat_id ← lift (get_caveat_id env root);
        let openid_macaroon := MacaroonRequest caveat_id in
        login_getattr "session";;
        session_set "macaroon_root" (VStr root);;
        let lp_teams := TeamsRequest [LP_CANONICAL_TEAM] in
        mret (TryLogin (LOGIN_URL env) ["email"; "nickname"; "image"]
                ["fullname"] [openid_macaroon; lp_teams])
    end.

(** The dict stored under [openid] when the account was fetched. *)
Definition openid_from_account (resp : OpenIDResponse) (account : value)
  : outcome value :=
  username ← py_getitem account "username";
  displayname ← py_getitem account "displayname";
  account_email ← py_getitem account "email";
  Ret (VDict [("identity_url", of_opt_str (identity_url resp));
              ("nickname", username);
              ("fullname", displayname);
              ("image", of_opt_str (image resp));
              ("email", account_email);
              ("is_canonical",
               VBool (existsb (String.eqb LP_CANONICAL_TEAM)
                        (ext_lp_is_member resp)))]).

(** The dict stored under [openid] by the fallback clause. *)
Definition openid_from_provider (resp : OpenIDResponse) : value :=
  VDict [("identity_url", of_opt_str (identity_url resp));
         ("nickname", of_opt_str (nickname resp));
         ("fullname", of_opt_str (fullname resp));
         ("image", of_opt_str (image resp));
         ("email", of_opt_str (email resp))].

(** The except clauses of [after_login]: the circuit breaker first, then
    [Exception], which every other exception is.  Both go through
    [login]; the fallback evaluates its dict before it asks for the
    session. *)
Definition after_login_except (resp : OpenIDResponse) (e : exn) : M unit :=
  if isinstance_ApiCircuitBreaker e then
    login_getattr "abort";;
    abort 503 None
  else
    let openid := openid_from_provider resp in
    login_getattr "session";;
    session_set "openid" openid.

(** Line 328 evaluates the discharge, then asks [login] for the session
    to store it.  In the try block the account comes from [dashboard]
    and the ownership partition from [logic], and each store goes
    through [login.session]; the redirects go through
    [login.redirect], looked up before the next URL is asked for. *)
Definition after_login (next_url : string) (resp : OpenIDResponse) : M reply :=
  let discharge := of_opt_str (ext_macaroon_discharge resp) in
  login_getattr "session";;
  session_set "macaroon_discharge" discharge;;
  if negb (truthy_opt_str (nickname resp)) then
    login_getattr "redirect";;
    mret (Redirect (LOGIN_URL env))
  else
    try_except
      (account ← unbound_name "dashboard";
       openid ← lift (openid_from_account resp account);
       login_getattr "session";;
       session_set "openid" openid;;
       '(owned, shared) ← (unbound_name "logic" : M (value * value));
       login_getattr "session";;
       session_set "user_shared_snaps" shared)
      (after_login_except resp);;
    login_getattr "redirect";;
    mret (Redirect next_url).

(** Line 361 asks [login] for the request before anything else; the
    session test, the emptying and both redirects go through [login]
    too. *)
Definition logout (no_redirect_arg : option string) (url_root : string) : M reply :=
  login_getattr "request";;
  let no_redirect := default "false" no_redirect_arg in
  login_getattr "session";;
  s ← get_session;
  (if is_authenticated s then login_getattr "session";; empty_session
   else mret tt);;
  if String.eqb no_redirect "true" then
    login_getattr "redirect";;
    mret (Redirect "/")
  else
    login_getattr "request";;
    let redirect_url := quote url_root "" in
    login_getattr "redirect";;
    mret (Redirect (LOGIN_URL env +:+ "/+logout?return_to=" +:+ redirect_url
                      +:+ "&return_now=True")).

(** ** Runs of the login state machine *)







End Handlers.

(** ** States and predicates the statements use *)

(** The state after macaroon issuance was called. *)
Definition issued (w : world) : world :=
  {| session := session w; backend_log := (backend_log w ++ [IssueMacaroon])%list |}.

(** An entry of an error list that the scan passes over: a dict whose
    [code] is not [user-not-ready], or is, with a message string that
    has neither of the two known phrases. *)
Definition passed_over (error : value) : Prop :=
  exists fields code,
    error = VDict fields /\ dict_get "code" fields = Some code /\
    (eq_str code "user-not-ready" = false \/
     exists message,
       dict_get "message" fields = Some (VStr message) /\
       substring_in "has not signed agreement" message = false /\
       substring_in "missing store username" message = false).

(** ** Concrete inputs *)

Module Samples.

Definition env : Env := {|
  ACCOUNT_URL := "https://dashboard.example/api/v2/tokens/whoami";
  AGREEMENT_URL := "https://dashboard.example/dev/api/agreement/";
  SNAP_PUB_METRICS_URL := "https://dashboard.example/dev/api/snaps/metrics";
  PUB_METRICS_QUERY_HEADERS := {[ "Content-Type" := "application/json" ]};
  REGISTER_NAME_URL := "https://dashboard.example/dev/api/register-name/";
  REGISTER_NAME_DISPUTE_URL := "https://dashboard.example/dev/api/register-name-dispute/";
  SNAP_INFO_URL := fun snap_name => "https://dashboard.example/dev/api/snaps/info/" +:+ snap_name;
  METADATA_QUERY_URL := fun snap_id => "https://dashboard.example/dev/api/snaps/" +:+ snap_id +:+ "/metadata";
  SCREENSHOTS_QUERY_URL := fun snap_id => "https://dashboard.example/dev/api/snaps/" +:+ snap_id +:+ "/binary-metadata";
  REVISION_HISTORY_URL := fun snap_id => "https://dashboard.example/dev/api/snaps/" +:+ snap_id +:+ "/history";
  SNAP_RELEASE_HISTORY_URL := fun snap_name _ => "https://dashboard.example/api/v2/snaps/" +:+ snap_name +:+ "/releases";
  SNAP_RELEASE := "https://dashboard.example/dev/api/snap-release/";
  CLOSE_CHANNEL := fun snap_id => "https://dashboard.example/dev/api/snaps/" +:+ snap_id +:+ "/close";
  is_macaroon_expired := fun hs =>
    bool_decide (hs !! "WWW-Authenticate" = Some "Macaroon needs_refresh=1");
  bind_authorization := fun root discharge =>
    match root, discharge with
    | VStr r, VStr d => Ret ("Macaroon root=" +:+ r +:+ ", discharge=" +:+ d)
    | _, _ => Raise (TypeError "macaroon is not a string")
    end;
  get_caveat_id := fun root => Ret ("caveat-of-" +:+ root);
  LOGIN_URL_env := None
|}.

(** The same surroundings, with a root macaroon that has no caveat. *)
Definition env_without_caveat : Env := {|
  ACCOUNT_URL := ACCOUNT_URL env;
  AGREEMENT_URL := AGREEMENT_URL env;
  SNAP_PUB_METRICS_URL := SNAP_PUB_METRICS_URL env;
  PUB_METRICS_QUERY_HEADERS := PUB_METRICS_QUERY_HEADERS env;
  REGISTER_NAME_URL := REGISTER_NAME_URL env;
  REGISTER_NAME_DISPUTE_URL := REGISTER_NAME_DISPUTE_URL env;
  SNAP_INFO_URL := SNAP_INFO_URL env;
  METADATA_QUERY_URL := METADATA_QUERY_URL env;
  SCREENSHOTS_QUERY_URL := SCREENSHOTS_QUERY_URL env;
  REVISION_HISTORY_URL := REVISION_HISTORY_URL env;
  SNAP_RELEASE_HISTORY_URL := SNAP_RELEASE_HISTORY_URL env;
  SNAP_RELEASE := SNAP_RELEASE env;
  CLOSE_CHANNEL := CLOSE_CHANNEL env;
  is_macaroon_expired := is_macaroon_expired env;
  bind_authorization := bind_authorization env;
  get_caveat_id := fun _ => Raise (ApiResponseError "no caveat" 401);
  LOGIN_URL_env := LOGIN_URL_env env
|}.

(** A backend that answers every request with [r]. *)
Definition answering (r : Response) : Net :=
  {| api_session := fun _ => Ret r; request_macaroon := Ret "root-1" |}.

(** A backend whose every call fails with [e]. *)
Definition failing (e : exn) : Net :=
  {| api_session := fun _ => Raise e; request_macaroon := Raise e |}.

Definition with_macaroons : gmap string value :=
  <["macaroon_discharge" := VStr "discharge-1"]>
    (<["macaroon_root" := VStr "root-1"]> ∅).

Definition fresh : world := {| session := ∅; backend_log := [] |}.

Definition holding (s : gmap string value) : world :=
  {| session := s; backend_log := [] |}.


Definition garbled : Response := {|
  status_code := 200; ok := true; headers := ∅;
  json := inl "Expecting value: line 1 column 1 (char 0)"
|}.

Definition no_content : Response := {|
  status_code := 204; ok := true; headers := ∅;
  json := inl "Expecting value: line 1 column 1 (char 0)"
|}.

Definition not_signed_body : value :=
  VDict [("error_list",
          VList [VDict [("code", VStr "user-not-ready");
                        ("message", VStr "Developer has not signed agreement.")]])].

Definition forbidden (body : value) : Response := {|
  status_code := 403; ok := false; headers := ∅; json := inr body
|}.

Definition bob : OpenIDResponse := {|
  identity_url := Some "https://login.ubuntu.com/+id/bob";
  nickname := Some "bob";
  fullname := Some "Bob B";
  image := None;
  email := Some "bob@example.com";
  ext_macaroon_discharge := Some "discharge-1";
  ext_lp_is_member := ["canonical"]
|}.

Definition nameless : OpenIDResponse := {|
  identity_url := Some "https://login.ubuntu.com/+id/bob";
  nickname := None;
  fullname := None;
  image := None;
  email := None;
  ext_macaroon_discharge := Some "discharge-1";
  ext_lp_is_member := []
|}.

Definition metrics_request : Request := {|
  req_method := Some "POST";
  req_url := SNAP_PUB_METRICS_URL env;
  req_headers :=
    <["Authorization" := "Macaroon root=root-1, discharge=discharge-1"]>
      (PUB_METRICS_QUERY_HEADERS env);
  req_json := Some (VDict []); req_data := None; req_files := None
|}.

Definition account_body : value :=
  VDict [("username", VStr "bob"); ("displayname", VStr "Bob B");
         ("email", VStr "bob@example.com"); ("shared", VList [VStr "snap-a"])].

Definition account_ok : Response := {|
  status_code := 200; ok := true; headers := ∅; json := inr account_body
|}.

End Samples.

(** * Properties *)

(** Unfold the monad of handlers down to state passing. *)
Ltac unfold_M :=
  unfold mbind, mret, M_bind, M_ret, lift, raise, abort, try_except, get_session,
    session_set, api_request, call_request_macaroon, empty_session,
    login_getattr, unbound_name in *;
  cbn in *.

(** ** Response processing *)

Lemma process_response_decode_error (r : Response) (msg : string) :
  json r = inl msg ->
  process_response r = Raise (ApiResponseDecodeError ("JSON decoding failed: " +:+ msg)).
Proof. intros H. unfold process_response. now rewrite H. Qed.

Lemma process_response_ok (r : Response) (body : value) :
  json r = inr body -> ok r = true -> process_response r = Ret body.
Proof. intros Hj Hok. unfold process_response. now rewrite Hj, Hok. Qed.

Lemma process_response_unknown_error (r : Response) (body : value) :
  json r = inr body -> ok r = false ->
  py_contains "error_list" body = Ret false -> truthy body = false ->
  process_response r = Raise (ApiResponseError "Unknown error from api" (status_code r)).
Proof.
  intros Hj Hok Hc Ht. unfold process_response.
  rewrite Hj, Hok. cbn. rewrite Hc. cbn. now rewrite Ht.
Qed.

(** An error list whose scan finds no known code is raised whole, with
    the status code. *)
Lemma process_response_error_list (r : Response) (items : list (string * value))
    (error_list : value) (errors : list value) :
  json r = inr (VDict items) -> ok r = false ->
  dict_get "error_list" items = Some error_list ->
  py_iter error_list = Ret errors ->
  scan_error_list errors = Ret tt ->
  process_response r =
    Raise (ApiResponseErrorList "The api returned a list of errors"
             (status_code r) error_list).
Proof.
  intros Hj Hok Hg Hi Hs. unfold process_response.
  rewrite Hj, Hok. cbn. rewrite Hg. cbn.
  rewrite Hi. cbn. now rewrite Hs.
Qed.

Lemma scan_error_list_not_signed (items : list (string * value)) (message : string)
    (rest : list value) :
  dict_get "code" items = Some (VStr "user-not-ready") ->
  dict_get "message" items = Some (VStr message) ->
  substring_in "has not signed agreement" message = true ->
  scan_error_list (VDict items :: rest) = Raise AgreementNotSigned.
Proof. intros Hc Hm Hs. cbn. rewrite Hc. cbn. rewrite Hm. cbn. now rewrite Hs. Qed.

Lemma scan_error_list_missing_username (items : list (string * value))
    (message : string) (rest : list value) :
  dict_get "code" items = Some (VStr "user-not-ready") ->
  dict_get "message" items = Some (VStr message) ->
  substring_in "has not signed agreement" message = false ->
  substring_in "missing store username" message = true ->
  scan_error_list (VDict items :: rest) = Raise MissingUsername.
Proof.
  intros Hc Hm Hs Hu. cbn. rewrite Hc. cbn. rewrite Hm. cbn.
  rewrite Hs. cbn. now rewrite Hu.
Qed.

(** C10: a non-ok response whose decoded body is truthy and for which
    ["error_list" in body] is false raises nothing: the body comes back,
    the same result as for the response with [ok] set. *)
Theorem process_response_passes_unlisted_failure (r : Response) (body : value) :
  ok r = false ->
  json r = inr body ->
  truthy body = true ->
  py_contains "error_list" body = Ret false ->
  process_response r = Ret body /\
  process_response r =
    process_response {| status_code := status_code r; ok := true;
                        headers := headers r; json := json r |}.
Proof.
  intros Hok Hj Ht Hc.
  assert (H : process_response r = Ret body).
  { unfold process_response. rewrite Hj, Hok. cbn. rewrite Hc. cbn. now rewrite Ht. }
  split; [exact H|].
  rewrite H. symmetry. now apply process_response_ok.
Qed.

Lemma process_response_passes_unlisted_failure_witness :
  process_response (Samples.forbidden (VDict [("detail", VStr "Forbidden")]))
    = Ret (VDict [("detail", VStr "Forbidden")]) /\
  process_response (Samples.forbidden (VDict [("detail", VStr "Forbidden")]))
    = process_response
        {| status_code := 403; ok := true; headers := ∅;
           json := inr (VDict [("detail", VStr "Forbidden")]) |}.
Proof.
  apply (process_response_passes_unlisted_failure
           (Samples.forbidden (VDict [("detail", VStr "Forbidden")]))
           (VDict [("detail", VStr "Forbidden")])); reflexivity.
Defined.

(** ** The client operations *)

Section ClientProperties.

Context (env : Env) (net : Net).

Lemma exchange_unfold prepare treat w :
  exchange env net prepare treat w =
    match prepare with
    | Raise e => (Raise e, w)
    | Ret req =>
        (match api_session net req with
         | Raise e => Raise e
         | Ret r => if is_macaroon_expired env (headers r)
                    then Raise MacaroonRefreshRequired else treat r
         end, logged w req)
    end.
Proof.
  unfold exchange, logged. unfold_M. destruct prepare as [req|e]; [|reflexivity].
  destruct (api_session net req) as [r|e]; [|reflexivity].
  now destruct (is_macaroon_expired env (headers r)).
Qed.

Ltac open_op :=
  intros w; rewrite exchange_unfold; cbn [perform];
  unfold get_account, get_agreement, post_agreement, post_username,
    get_publisher_metrics, post_register_name, post_register_name_dispute,
    get_snap_id, get_snap_info, snap_metadata, snap_screenshots,
    snap_revision_history, snap_release_history, post_snap_release,
    post_close_channel, send, request_with, logged;
  unfold_M.

Ltac by_cases :=
  repeat first
    [ reflexivity
    | match goal with
      | |- context [get_authorization_header env ?s] =>
          destruct (get_authorization_header env s); cbn
      | |- context [api_session net ?q] => destruct (api_session net q); cbn
      | |- context [is_macaroon_expired env ?h] =>
          destruct (is_macaroon_expired env h); cbn
      | |- context [match ?x with _ => _ end] => destruct x; cbn
      | |- context [if ?x then _ else _] => destruct x; cbn
      end ].

Lemma perform_exchange (op : operation) (s : gmap string value) :
  exists prepare, forall w, perform env net op s w = exchange env net prepare (treatment op) w.
Proof.
  destruct op; cbn [treatment].
  - exists (request_with env s (Some "GET") (ACCOUNT_URL env) None).
    open_op. by_cases.
  - exists (request_with env s (Some "GET") (AGREEMENT_URL env) None).
    open_op. by_cases.
  - exists (request_with env s (Some "POST") (AGREEMENT_URL env)
              (Some (VDict [("latest_tos_accepted", agreed)]))).
    open_op. by_cases.
  - exists (request_with env s (Some "PATCH") (ACCOUNT_URL env)
              (Some (VDict [("short_namespace", username)]))).
    open_op. by_cases.
  - exists (hs ← get_authorization_header env s;
            auth_header ← match hs !! "Authorization" with
                          | Some a => Ret a
                          | None => Raise (KeyError "Authorization")
                          end;
            Ret {| req_method := Some "POST"; req_url := SNAP_PUB_METRICS_URL env;
                   req_headers := <["Authorization" := auth_header]>
                                    (PUB_METRICS_QUERY_HEADERS env);
                   req_json := Some json0; req_data := None; req_files := None |}).
    open_op. by_cases.
  - exists (request_with env s (Some "POST") (REGISTER_NAME_URL env)
              (Some (VDict
                 (let json := [("snap_name", VStr snap_name)] in
                  let json :=
                    if truthy_opt_str registrant_comment
                    then (json ++ [("registrant_comment",
                                    of_opt_str registrant_comment)])%list
                    else json in
                  let json :=
                    if is_private
                    then (json ++ [("is_private", VBool is_private)])%list
                    else json in
                  if truthy_opt_str store
                  then (json ++ [("store", of_opt_str store)])%list
                  else json)))).
    open_op. by_cases.
  - exists (request_with env s (Some "POST") (REGISTER_NAME_DISPUTE_URL env)
              (Some (VDict [("snap_name", VStr snap_name);
                            ("comment", VStr claim_comment)]))).
    open_op. by_cases.
  - exists (request_with env s (Some "GET") (SNAP_INFO_URL env snap_name) None).
    open_op. by_cases.
  - exists (request_with env s (Some "GET") (SNAP_INFO_URL env snap_name) None).
    open_op. by_cases.
  - exists (request_with env s (match json0 with Some _ => Some "PUT" | None => None end)
              (METADATA_QUERY_URL env snap_id) json0).
    open_op. by_cases.
  - exists (hs ← get_authorization_header env s;
            '(method, data', files_array) ←
              (if from_option truthy false data then
                 if match files with Some (_ :: _) => true | _ => false end then
                   Ret (Some "PUT", data,
                        Some (FilesList
                                (map (fun f => (filename f,
                                                (filename f, stream f, mimetype f)))
                                     (default [] files))))
                 else
                   info ← py_getitem (default VNone data) "info";
                   Ret (Some "PUT", None, Some (FilesInfo ("", info)))
               else Ret (Some "GET", data, None));
            Ret {| req_method := method; req_url := SCREENSHOTS_QUERY_URL env snap_id;
                   req_headers := <["Accept" := "application/json"]> hs;
                   req_json := None; req_data := data'; req_files := files_array |}).
    open_op. by_cases.
  - exists (request_with env s (Some "GET") (REVISION_HISTORY_URL env snap_id) None).
    open_op. by_cases.
  - exists (request_with env s (Some "GET") (SNAP_RELEASE_HISTORY_URL env snap_name page)
              None).
    open_op. by_cases.
  - exists (request_with env s (Some "POST") (SNAP_RELEASE env) (Some json0)).
    open_op. by_cases.
  - exists (request_with env s (Some "POST") (CLOSE_CHANNEL env snap_id) (Some json0)).
    open_op. by_cases.
Qed.

Lemma perform_prepare (op : operation) (s : gmap string value) (w : world) :
  perform env net op s w = exchange env net (prepare env op s) (treatment op) w.
Proof.
  revert w. destruct op; cbn [treatment prepare]; open_op; by_cases.
Qed.

End ClientProperties.



(** A response that is not expired is handed to the operation's
    treatment: [process_response] for all operations but the agreement
    fetch, which returns [response.json()] as it is. *)
Lemma unexpired_response_is_treated (env : Env) (net : Net) (op : operation)
    (s : gmap string value) (w : world) (req : Request) (r : Response) :
  backend_log (snd (perform env net op s w)) = (backend_log w ++ [Api req])%list ->
  api_session net req = Ret r ->
  is_macaroon_expired env (headers r) = false ->
  fst (perform env net op s w) = treatment op r.
Proof.
  destruct (perform_exchange env net op s) as (prepare & E).
  rewrite E, exchange_unfold.
  destruct prepare as [req0|e]; cbn.
  - intros Hlog Hr Hx. apply app_inj_tail in Hlog as [_ Hreq].
    injection Hreq as ->. now rewrite Hr, Hx.
  - intros Hlog. apply (f_equal length) in Hlog.
    rewrite length_app in Hlog. cbn in Hlog. lia.
Qed.

Lemma get_agreement_returns_raw_json (env : Env) (net : Net)
    (s : gmap string value) (w : world) (hs : gmap string string) (r : Response) :
  get_authorization_header env s = Ret hs ->
  api_session net {| req_method := Some "GET"; req_url := AGREEMENT_URL env;
                     req_headers := hs; req_json := None; req_data := None;
                     req_files := None |} = Ret r ->
  is_macaroon_expired env (headers r) = false ->
  fst (get_agreement env net s w) = response_json r.
Proof.
  intros Hh Hr Hx. unfold get_agreement, send. unfold_M.
  now rewrite Hh, Hr, Hx.
Qed.

(** C5: the agreement fetch leaves the uniform pattern.  On a body that
    does not decode it raises the bare [ValueError] where
    [process_response] raises [ApiResponseDecodeError], and on a non-ok
    response carrying an [error_list] it returns the body where
    [process_response] raises the typed error. *)
Theorem get_agreement_skips_response_processing :
  fst (get_agreement Samples.env (Samples.answering Samples.garbled)
         Samples.with_macaroons Samples.fresh)
    = Raise (ValueError "Expecting value: line 1 column 1 (char 0)") /\
  process_response Samples.garbled
    = Raise (ApiResponseDecodeError
               "JSON decoding failed: Expecting value: line 1 column 1 (char 0)") /\
  fst (get_agreement Samples.env
         (Samples.answering (Samples.forbidden Samples.not_signed_body))
         Samples.with_macaroons Samples.fresh)
    = Ret Samples.not_signed_body /\
  process_response (Samples.forbidden Samples.not_signed_body)
    = Raise AgreementNotSigned /\
  fst (post_agreement Samples.env
         (Samples.answering (Samples.forbidden Samples.not_signed_body))
         Samples.with_macaroons (VBool true) Samples.fresh)
    = Raise AgreementNotSigned.
Proof. repeat split; reflexivity. Qed.

(** C9: a 204 answer to the username update gives the empty dict,
    whatever the body: the body is not decoded, so a body that is not
    JSON raises no decode error. *)
Theorem post_username_no_content (env : Env) (net : Net) (s : gmap string value)
    (username : value) (w : world) (hs : gmap string string) (r : Response) :
  get_authorization_header env s = Ret hs ->
  api_session net {| req_method := Some "PATCH"; req_url := ACCOUNT_URL env;
                     req_headers := hs;
                     req_json := Some (VDict [("short_namespace", username)]);
                     req_data := None; req_files := None |} = Ret r ->
  is_macaroon_expired env (headers r) = false ->
  status_code r = 204 ->
  fst (post_username env net s username w) = Ret (VDict []) /\
  session (snd (post_username env net s username w)) = session w.
Proof.
  intros Hh Hr Hx Hs. unfold post_username, send. unfold_M.
  rewrite Hh, Hr, Hx, Hs. now cbn.
Qed.

Lemma post_username_no_content_witness :
  json Samples.no_content = inl "Expecting value: line 1 column 1 (char 0)" /\
  fst (post_username Samples.env (Samples.answering Samples.no_content)
         Samples.with_macaroons (VStr "bob") Samples.fresh) = Ret (VDict []).
Proof.
  split; [reflexivity|].
  apply (post_username_no_content Samples.env (Samples.answering Samples.no_content)
           Samples.with_macaroons (VStr "bob") Samples.fresh
           {[ "Authorization" := "Macaroon root=root-1, discharge=discharge-1" ]}
           Samples.no_content); reflexivity.
Defined.

(** ** The login entry point *)

(** C6: on an authenticated session the login entry point asks the
    backend for nothing, leaves the session as it is, and redirects to the
    next URL; so does any repetition of the call. *)
Theorem login_handler_authenticated (env : Env) (net : Net) (next_url : string)
    (w : world) :
  is_authenticated (session w) = true ->
  login_handler env net next_url w = (Ret (Redirect next_url), w) /\
  login_handler env net next_url (snd (login_handler env net next_url w))
    = login_handler env net next_url w.
Proof.
  intros Ha.
  assert (H : login_handler env net next_url w = (Ret (Redirect next_url), w)).
  { unfold login_handler. unfold_M. now rewrite Ha. }
  split; [exact H|]. now rewrite H.
Qed.

Lemma login_handler_authenticated_witness :
  login_handler Samples.env (Samples.failing ApiCircuitBreaker) "/snaps"
    (Samples.holding (<["openid" := openid_from_provider Samples.bob]>
                        Samples.with_macaroons))
  = (Ret (Redirect "/snaps"),
     Samples.holding (<["openid" := openid_from_provider Samples.bob]>
                        Samples.with_macaroons)).
Proof.
  apply (login_handler_authenticated Samples.env (Samples.failing ApiCircuitBreaker)
           "/snaps"
           (Samples.holding (<["openid" := openid_from_provider Samples.bob]>
                               Samples.with_macaroons))).
  reflexivity.
Defined.

(** What the except clauses of the login entry point come to: a clause
    that matches asks the blueprint for [redirect] or [abort]. *)
Lemma login_handler_except_unfold (e : exn) (w : world) :
  login_handler_except e w =
    match isinstance_ApiResponseError e with
    | Some status =>
        (Raise (AttributeError (if status =? 401 then "redirect" else "abort")), w)
    | None =>
        if isinstance_ApiCircuitBreaker e || isinstance_ApiError e
        then (Raise (AttributeError "abort"), w)
        else (Raise e, w)
    end.
Proof.
  unfold login_handler_except.
  destruct (isinstance_ApiResponseError e) as [status|].
  - now destruct (status =? 401).
  - destruct (isinstance_ApiCircuitBreaker e); [reflexivity|].
    now destruct (isinstance_ApiError e).
Qed.

Lemma login_handler_unfold (env : Env) (net : Net) (next_url : string) (w : world) :
  login_handler env net next_url w =
    if is_authenticated (session w) then (Ret (Redirect next_url), w)
    else
      match request_macaroon net with
      | Raise e => login_handler_except e (issued w)
      | Ret root =>
          match get_caveat_id env root with
          | Raise e => (Raise e, issued w)
          | Ret _ => (Raise (AttributeError "session"), issued w)
          end
      end.
Proof.
  unfold login_handler, issued. unfold_M.
  destruct (is_authenticated (session w)); [reflexivity|].
  destruct (request_macaroon net) as [root|e]; cbn.
  - now destruct (get_caveat_id env root).
  - match goal with |- context [login_handler_except e ?w1] =>
      now destruct (login_handler_except e w1) as [[early|e'] w2] end.
Qed.

(** C4: when macaroon issuance fails at the login entry point, the except
    clause that catches the failure asks the blueprint for [redirect]
    (status 401) or for [abort] (any other [ApiResponseError], a plain
    [ApiError], [ApiCircuitBreaker]); the blueprint has neither, so what
    comes out is an [AttributeError], not the redirect to the logout
    route, the 502 or the 503.  Nothing is stored in the session. *)
Theorem login_handler_acquisition_failure (env : Env) (net : Net)
    (next_url : string) (w : world) :
  is_authenticated (session w) = false ->
  (forall m, request_macaroon net = Raise (ApiResponseError m 401) ->
     login_handler env net next_url w
       = (Raise (AttributeError "redirect"), issued w)) /\
  (forall m status, request_macaroon net = Raise (ApiResponseError m status) ->
     status <> 401 ->
     login_handler env net next_url w = (Raise (AttributeError "abort"), issued w)) /\
  (forall m, request_macaroon net = Raise (ApiError m) ->
     login_handler env net next_url w = (Raise (AttributeError "abort"), issued w)) /\
  (request_macaroon net = Raise ApiCircuitBreaker ->
     login_handler env net next_url w = (Raise (AttributeError "abort"), issued w)).
Proof.
  intros Ha. rewrite login_handler_unfold, Ha.
  repeat split; intros; rewrite H; rewrite login_handler_except_unfold; cbn;
    try reflexivity.
  destruct (status =? 401) eqn:E; [|reflexivity].
  apply Z.eqb_eq in E. contradiction.
Qed.

Lemma login_handler_acquisition_failure_witness :
  login_handler Samples.env (Samples.failing (ApiResponseError "Unauthorized" 401))
    "/snaps" Samples.fresh
    = (Raise (AttributeError "redirect"), issued Samples.fresh) /\
  login_handler Samples.env (Samples.failing (ApiResponseError "Bad gateway" 500))
    "/snaps" Samples.fresh
    = (Raise (AttributeError "abort"), issued Samples.fresh) /\
  login_handler Samples.env (Samples.failing ApiCircuitBreaker) "/snaps" Samples.fresh
    = (Raise (AttributeError "abort"), issued Samples.fresh).
Proof.
  split; [|split].
  - destruct (login_handler_acquisition_failure Samples.env
                (Samples.failing (ApiResponseError "Unauthorized" 401)) "/snaps"
                Samples.fresh eq_refl) as (H & _).
    apply (H "Unauthorized"). reflexivity.
  - destruct (login_handler_acquisition_failure Samples.env
                (Samples.failing (ApiResponseError "Bad gateway" 500)) "/snaps"
                Samples.fresh eq_refl) as (_ & H & _).
    apply (H "Bad gateway" 500); [reflexivity|discriminate].
  - destruct (login_handler_acquisition_failure Samples.env
                (Samples.failing ApiCircuitBreaker) "/snaps" Samples.fresh eq_refl)
      as (_ & _ & _ & H).
    apply H. reflexivity.
Defined.

(** ** The provider callback *)

(** C7: a callback without a nickname does not reach the redirect to
    the provider's login URL: the store of the discharge on line 328
    asks the blueprint for [session], which raises [AttributeError], and
    the state is left as it was. *)
Theorem after_login_without_nickname (env : Env) (next_url : string)
    (resp : OpenIDResponse) (w : world) :
  truthy_opt_str (nickname resp) = false ->
  after_login env next_url resp w = (Raise (AttributeError "session"), w) /\
  forall location, fst (after_login env next_url resp w) <> Ret (Redirect location).
Proof.
  intros _. split; [reflexivity|]. intros location H. discriminate H.
Qed.

Lemma after_login_without_nickname_witness :
  after_login Samples.env "/snaps" Samples.nameless Samples.fresh
    = (Raise (AttributeError "session"), Samples.fresh).
Proof.
  apply (after_login_without_nickname Samples.env "/snaps" Samples.nameless
           Samples.fresh).
  reflexivity.
Defined.

(** C3: a callback with a nickname does not reach the account fetch,
    nor either except clause: the store of the discharge on line 328
    raises [AttributeError] first, outside the try block.  The session is
    not marked authenticated by the callback, no 503 comes out, and the
    backend is not contacted. *)
Theorem after_login_account_failure (env : Env) (next_url : string)
    (resp : OpenIDResponse) (w : world) :
  truthy_opt_str (nickname resp) = true ->
  fst (after_login env next_url resp w) = Raise (AttributeError "session") /\
  fst (after_login env next_url resp w) <> Raise (HTTPException 503 None) /\
  session (snd (after_login env next_url resp w)) = session w /\
  is_authenticated (session (snd (after_login env next_url resp w)))
    = is_authenticated (session w) /\
  backend_log (snd (after_login env next_url resp w)) = backend_log w.
Proof.
  intros _. repeat split. intros H. discriminate H.
Qed.

Lemma after_login_account_failure_witness :
  fst (after_login Samples.env "/snaps" Samples.bob
         (Samples.holding (<["macaroon_root" := VStr "root-1"]> ∅)))
    = Raise (AttributeError "session") /\
  is_authenticated
    (session (snd (after_login Samples.env "/snaps" Samples.bob
                     (Samples.holding (<["macaroon_root" := VStr "root-1"]> ∅)))))
    = false.
Proof.
  destruct (after_login_account_failure Samples.env "/snaps" Samples.bob
              (Samples.holding (<["macaroon_root" := VStr "root-1"]> ∅)) eq_refl)
    as (H1 & _ & _ & H2 & _).
  split; [exact H1|]. rewrite H2. reflexivity.
Defined.

(** ** Logout *)

(** C8: logout asks the blueprint for [request] on its first line, line
    361, which raises [AttributeError]: whatever the [no_redirect]
    argument, no redirect comes out, and the session, authenticated or
    not, is left as it was. *)
Theorem logout_raises_on_request (env : Env) (no_redirect_arg : option string)
    (url_root : string) (w : world) :
  logout env no_redirect_arg url_root w = (Raise (AttributeError "request"), w).
Proof. reflexivity. Qed.

(** ** The macaroon invariant along runs *)




(** * Further properties of the client *)

Lemma perform_unfold (env : Env) (net : Net) (op : operation)
    (s : gmap string value) (w : world) :
  perform env net op s w =
    match prepare env op s with
    | Raise e => (Raise e, w)
    | Ret req =>
        (match api_session net req with
         | Raise e => Raise e
         | Ret r => if is_macaroon_expired env (headers r)
                    then Raise MacaroonRefreshRequired else treatment op r
         end, logged w req)
    end.
Proof. rewrite perform_prepare. apply exchange_unfold. Qed.

Lemma log_grows_not_same {A} (l : list A) (x : A) : l <> (l ++ [x])%list.
Proof.
  intros H. apply (f_equal length) in H. rewrite length_app in H. cbn in H. lia.
Qed.

(** The request found in the log is the one the operation built. *)
Lemma logged_request_prepared (env : Env) (net : Net) (op : operation)
    (s : gmap string value) (w : world) (req : Request) :
  backend_log (snd (perform env net op s w)) = (backend_log w ++ [Api req])%list ->
  prepare env op s = Ret req.
Proof.
  rewrite perform_unfold. destruct (prepare env op s) as [req0|e]; cbn.
  - intros H. apply app_inj_tail in H as [_ H]. now injection H as ->.
  - intros H. now apply log_grows_not_same in H.
Qed.

Lemma get_authorization_header_ret (env : Env) (s : gmap string value)
    (hs : gmap string string) :
  get_authorization_header env s = Ret hs ->
  exists root discharge authorization,
    s !! "macaroon_root" = Some root /\
    s !! "macaroon_discharge" = Some discharge /\
    bind_authorization env root discharge = Ret authorization /\
    hs = {[ "Authorization" := authorization ]}.
Proof.
  unfold get_authorization_header, session_getitem.
  destruct (s !! "macaroon_root") as [root|]; cbn; [|discriminate].
  destruct (s !! "macaroon_discharge") as [discharge|]; cbn; [|discriminate].
  destruct (bind_authorization env root discharge) as [a|e] eqn:E; cbn;
    [|discriminate].
  intros H. injection H as <-. now exists root, discharge, a.
Qed.

Lemma prepare_header_failure (env : Env) (op : operation) (s : gmap string value)
    (e : exn) :
  get_authorization_header env s = Raise e -> prepare env op s = Raise e.
Proof.
  intros H. destruct op; cbn [prepare]; unfold request_with; now rewrite H.
Qed.

Lemma prepare_headers (env : Env) (op : operation) (s : gmap string value)
    (req : Request) :
  prepare env op s = Ret req ->
  exists authorization,
    get_authorization_header env s = Ret {[ "Authorization" := authorization ]} /\
    req_headers req !! "Authorization" = Some authorization.
Proof.
  destruct (get_authorization_header env s) as [hs|e] eqn:Hh.
  - destruct (get_authorization_header_ret env s hs Hh)
      as (root & discharge & a & _ & _ & _ & ->).
    intros H. exists a. split; [reflexivity|]. revert H.
    destruct op; cbn [prepare]; unfold request_with; rewrite Hh; cbn;
      try (intros H; injection H as <-; cbn; apply lookup_singleton_eq).
    + rewrite lookup_singleton_eq. cbn.
      intros H; injection H as <-; cbn. apply lookup_insert_eq.
    + destruct (from_option truthy false data); cbn;
        [destruct (match files with Some (_ :: _) => true | _ => false end); cbn;
         [|destruct (py_getitem (default VNone data) "info"); cbn;
           [|discriminate]]|];
        intros H; injection H as <-; cbn;
        rewrite lookup_insert_ne by discriminate; apply lookup_singleton_eq.
  - now rewrite (prepare_header_failure env op s e Hh).
Qed.

(** X1: on a session that lacks [macaroon_root] or [macaroon_discharge],
    every operation raises [KeyError] for the first missing key, the root
    being looked up first, and nothing is sent. *)
Theorem operation_without_macaroon (env : Env) (net : Net) (op : operation)
    (s : gmap string value) (w : world) :
  s !! "macaroon_root" = None \/ s !! "macaroon_discharge" = None ->
  perform env net op s w =
    (Raise (KeyError (match s !! "macaroon_root" with
                      | None => "macaroon_root"
                      | Some _ => "macaroon_discharge"
                      end)), w).
Proof.
  intros H. rewrite perform_unfold.
  rewrite (prepare_header_failure env op s
             (KeyError (match s !! "macaroon_root" with
                        | None => "macaroon_root"
                        | Some _ => "macaroon_discharge"
                        end)));
    [reflexivity|].
  unfold get_authorization_header, session_getitem.
  destruct (s !! "macaroon_root"); [|reflexivity]. cbn.
  destruct H as [H|H]; [discriminate|]. now rewrite H.
Qed.

Lemma operation_without_macaroon_witness :
  perform Samples.env (Samples.answering Samples.account_ok)
    (SnapScreenshots "snap-1" None None)
    (<["macaroon_root" := VStr "root-1"]> ∅) Samples.fresh
  = (Raise (KeyError "macaroon_discharge"), Samples.fresh).
Proof.
  etransitivity.
  - apply (operation_without_macaroon Samples.env
             (Samples.answering Samples.account_ok)
             (SnapScreenshots "snap-1" None None)
             (<["macaroon_root" := VStr "root-1"]> ∅) Samples.fresh).
    right. reflexivity.
  - reflexivity.
Defined.

(** X2: when binding the discharge to the root fails, every operation
    raises that failure and nothing is sent. *)
Theorem operation_with_unbindable_macaroons (env : Env) (net : Net) (op : operation)
    (s : gmap string value) (w : world) (root discharge : value) (e : exn) :
  s !! "macaroon_root" = Some root ->
  s !! "macaroon_discharge" = Some discharge ->
  bind_authorization env root discharge = Raise e ->
  perform env net op s w = (Raise e, w).
Proof.
  intros Hr Hd Hb. rewrite perform_unfold.
  rewrite (prepare_header_failure env op s e); [reflexivity|].
  unfold get_authorization_header, session_getitem. rewrite Hr. cbn.
  rewrite Hd. cbn. now rewrite Hb.
Qed.

Lemma operation_with_unbindable_macaroons_witness :
  perform Samples.env (Samples.answering Samples.account_ok) GetAccount
    (<["macaroon_discharge" := VNone]> (<["macaroon_root" := VStr "root-1"]> ∅))
    Samples.fresh
  = (Raise (TypeError "macaroon is not a string"), Samples.fresh).
Proof.
  apply (operation_with_unbindable_macaroons Samples.env
           (Samples.answering Samples.account_ok) GetAccount
           (<["macaroon_discharge" := VNone]> (<["macaroon_root" := VStr "root-1"]> ∅))
           Samples.fresh (VStr "root-1") VNone); reflexivity.
Defined.

Lemma prepared_request_authorized (env : Env) (op : operation)
    (s : gmap string value) (req : Request) :
  prepare env op s = Ret req ->
  exists root discharge authorization,
    s !! "macaroon_root" = Some root /\
    s !! "macaroon_discharge" = Some discharge /\
    bind_authorization env root discharge = Ret authorization /\
    req_headers req !! "Authorization" = Some authorization.
Proof.
  intros H.
  destruct (prepare_headers env op s req H) as (a & Hh & Ha).
  destruct (get_authorization_header_ret env s _ Hh)
    as (root & discharge & a' & Hr & Hd & Hb & E).
  exists root, discharge, a'. repeat split; try assumption.
  rewrite Ha. f_equal.
  apply (f_equal (fun m : gmap string string => m !! "Authorization")) in E.
  rewrite !lookup_singleton_eq in E. now injection E.
Qed.

(** X3: whatever request an operation sends carries, under
    [Authorization], the value bound from the session's root and
    discharge macaroons. *)
Theorem sent_request_is_authorized (env : Env) (net : Net) (op : operation)
    (s : gmap string value) (w : world) (req : Request) :
  backend_log (snd (perform env net op s w)) = (backend_log w ++ [Api req])%list ->
  exists root discharge authorization,
    s !! "macaroon_root" = Some root /\
    s !! "macaroon_discharge" = Some discharge /\
    bind_authorization env root discharge = Ret authorization /\
    req_headers req !! "Authorization" = Some authorization.
Proof.
  intros H. apply logged_request_prepared in H.
  now apply (prepared_request_authorized env op).
Qed.

Lemma sent_request_is_authorized_witness :
  exists root discharge authorization,
    Samples.with_macaroons !! "macaroon_root" = Some root /\
    Samples.with_macaroons !! "macaroon_discharge" = Some discharge /\
    bind_authorization Samples.env root discharge = Ret authorization /\
    req_headers Samples.metrics_request !! "Authorization" = Some authorization.
Proof.
  apply (sent_request_is_authorized Samples.env (Samples.answering Samples.account_ok)
           (GetPublisherMetrics (VDict [])) Samples.with_macaroons Samples.fresh
           Samples.metrics_request).
  reflexivity.
Defined.

(** X4: no operation changes the session, and each sends at most one
    request and never asks for a macaroon. *)
Theorem operation_frame (env : Env) (net : Net) (op : operation)
    (s : gmap string value) (w : world) :
  session (snd (perform env net op s w)) = session w /\
  (backend_log (snd (perform env net op s w)) = backend_log w \/
   exists req,
     backend_log (snd (perform env net op s w)) = (backend_log w ++ [Api req])%list).
Proof.
  rewrite perform_unfold. destruct (prepare env op s) as [req|e]; cbn.
  - split; [reflexivity|]. right. now exists req.
  - split; [reflexivity|]. now left.
Qed.

(** X5: an exception raised by the backend session while a request is
    sent comes out of the operation unchanged. *)
Theorem backend_failure_propagates (env : Env) (net : Net) (op : operation)
    (s : gmap string value) (w : world) (req : Request) (e : exn) :
  backend_log (snd (perform env net op s w)) = (backend_log w ++ [Api req])%list ->
  api_session net req = Raise e ->
  fst (perform env net op s w) = Raise e.
Proof.
  intros H He. apply logged_request_prepared in H.
  rewrite perform_unfold, H. cbn. now rewrite He.
Qed.

Lemma backend_failure_propagates_witness :
  fst (perform Samples.env (Samples.failing ApiCircuitBreaker)
         (PostAgreement (VBool true)) Samples.with_macaroons Samples.fresh)
    = Raise ApiCircuitBreaker.
Proof.
  apply (backend_failure_propagates Samples.env (Samples.failing ApiCircuitBreaker)
           (PostAgreement (VBool true)) Samples.with_macaroons Samples.fresh
           {| req_method := Some "POST"; req_url := AGREEMENT_URL Samples.env;
              req_headers :=
                {[ "Authorization" := "Macaroon root=root-1, discharge=discharge-1" ]};
              req_json := Some (VDict [("latest_tos_accepted", VBool true)]);
              req_data := None; req_files := None |}); reflexivity.
Defined.

(** X6: a response without the expiry signal goes through
    [process_response] in every operation but the agreement fetch and
    the snap id lookup, the username update doing so unless the status
    is 204. *)
Theorem unexpired_response_is_processed (env : Env) (net : Net) (op : operation)
    (s : gmap string value) (w : world) (req : Request) (r : Response) :
  backend_log (snd (perform env net op s w)) = (backend_log w ++ [Api req])%list ->
  api_session net req = Ret r ->
  is_macaroon_expired env (headers r) = false ->
  op <> GetAgreement ->
  (forall snap_name, op <> GetSnapId snap_name) ->
  (forall username, op = PostUsername username -> status_code r <> 204) ->
  fst (perform env net op s w) = process_response r.
Proof.
  intros H Hr Hx Ha Hi Hu. apply logged_request_prepared in H.
  rewrite perform_unfold, H. cbn. rewrite Hr, Hx.
  destruct op; cbn [treatment]; try reflexivity.
  - contradiction.
  - destruct (status_code r =? 204) eqn:E; [|reflexivity].
    apply Z.eqb_eq in E. now apply (Hu username) in E.
  - now contradiction (Hi snap_name).
Qed.

Lemma unexpired_response_is_processed_witness :
  fst (perform Samples.env
         (Samples.answering (Samples.forbidden Samples.not_signed_body))
         (PostUsername (VStr "bob")) Samples.with_macaroons Samples.fresh)
    = process_response (Samples.forbidden Samples.not_signed_body).
Proof.
  apply (unexpired_response_is_processed Samples.env
           (Samples.answering (Samples.forbidden Samples.not_signed_body))
           (PostUsername (VStr "bob")) Samples.with_macaroons Samples.fresh
           {| req_method := Some "PATCH"; req_url := ACCOUNT_URL Samples.env;
              req_headers :=
                {[ "Authorization" := "Macaroon root=root-1, discharge=discharge-1" ]};
              req_json := Some (VDict [("short_namespace", VStr "bob")]);
              req_data := None; req_files := None |});
    try reflexivity; try discriminate.
Defined.

Lemma request_with_ret (env : Env) (s : gmap string value) (method : option string)
    (url : string) (body : option value) (req : Request) :
  request_with env s method url body = Ret req ->
  exists hs,
    get_authorization_header env s = Ret hs /\
    req = {| req_method := method; req_url := url; req_headers := hs;
             req_json := body; req_data := None; req_files := None |}.
Proof.
  unfold request_with. destruct (get_authorization_header env s) as [hs|e]; cbn;
    [|discriminate].
  intros H. injection H as <-. now exists hs.
Qed.

(** X7: the metrics request carries the payload it was given and the
    default metrics headers, with [Authorization] set to the value bound
    from the session, in place of any default one. *)
Theorem publisher_metrics_request (env : Env) (net : Net) (s : gmap string value)
    (json : value) (w : world) (req : Request) :
  backend_log (snd (get_publisher_metrics env net s json w))
    = (backend_log w ++ [Api req])%list ->
  req_method req = Some "POST" /\
  req_url req = SNAP_PUB_METRICS_URL env /\
  req_json req = Some json /\
  (forall k, k <> "Authorization" ->
     req_headers req !! k = PUB_METRICS_QUERY_HEADERS env !! k) /\
  exists root discharge authorization,
    s !! "macaroon_root" = Some root /\
    s !! "macaroon_discharge" = Some discharge /\
    bind_authorization env root discharge = Ret authorization /\
    req_headers req !! "Authorization" = Some authorization.
Proof.
  intros H.
  apply (logged_request_prepared env net (GetPublisherMetrics json)) in H.
  pose proof (prepared_request_authorized env (GetPublisherMetrics json) s req H)
    as Hauth.
  cbn [prepare] in H.
  destruct (get_authorization_header env s) as [hs|e]; cbn in H; [|discriminate].
  destruct (hs !! "Authorization") as [a|]; cbn in H; [|discriminate].
  injection H as <-. cbn. repeat split; try exact Hauth.
  intros k Hk. now rewrite lookup_insert_ne.
Qed.

Lemma publisher_metrics_request_witness :
  req_headers Samples.metrics_request !! "Content-Type"
    = PUB_METRICS_QUERY_HEADERS Samples.env !! "Content-Type".
Proof.
  destruct (publisher_metrics_request Samples.env
              (Samples.answering Samples.account_ok) Samples.with_macaroons
              (VDict []) Samples.fresh Samples.metrics_request)
    as (_ & _ & _ & H & _); [reflexivity|].
  apply H. discriminate.
Defined.

(** X8: the name registration payload always has [snap_name]; it has
    [registrant_comment] and [store] exactly when they are given and not
    empty, and [is_private] exactly when it is true. *)
Theorem register_name_payload (env : Env) (net : Net) (s : gmap string value)
    (snap_name : string) (registrant_comment : option string) (is_private : bool)
    (store : option string) (w : world) (req : Request) :
  backend_log (snd (post_register_name env net s snap_name registrant_comment
                      is_private store w))
    = (backend_log w ++ [Api req])%list ->
  exists items,
    req_json req = Some (VDict items) /\
    dict_get "snap_name" items = Some (VStr snap_name) /\
    dict_get "registrant_comment" items
      = (if truthy_opt_str registrant_comment
         then Some (of_opt_str registrant_comment) else None) /\
    dict_get "is_private" items = (if is_private then Some (VBool true) else None) /\
    dict_get "store" items
      = (if truthy_opt_str store then Some (of_opt_str store) else None).
Proof.
  intros H.
  apply (logged_request_prepared env net
           (PostRegisterName snap_name registrant_comment is_private store)) in H.
  cbn [prepare] in H. apply request_with_ret in H as (hs & _ & ->).
  eexists. split; [reflexivity|].
  destruct (truthy_opt_str registrant_comment), is_private,
    (truthy_opt_str store); cbn; repeat split; reflexivity.
Qed.

Lemma register_name_payload_witness :
  exists items,
    Some (VDict [("snap_name", VStr "my-snap"); ("is_private", VBool true)])
      = Some (VDict items) /\
    dict_get "snap_name" items = Some (VStr "my-snap") /\
    dict_get "registrant_comment" items = None /\
    dict_get "is_private" items = Some (VBool true) /\
    dict_get "store" items = None.
Proof.
  apply (register_name_payload Samples.env (Samples.answering Samples.account_ok)
           Samples.with_macaroons "my-snap" (Some "") true None Samples.fresh
           {| req_method := Some "POST"; req_url := REGISTER_NAME_URL Samples.env;
              req_headers :=
                {[ "Authorization" := "Macaroon root=root-1, discharge=discharge-1" ]};
              req_json := Some (VDict [("snap_name", VStr "my-snap");
                                       ("is_private", VBool true)]);
              req_data := None; req_files := None |}).
  reflexivity.
Defined.

(** X9: the screenshots request asks for JSON; with no data, or empty
    data, it is a GET without files, whatever files were passed; with
    data and files it is a PUT of the data and one entry per file, in
    order; with data and no files it is a PUT whose only file part is
    the [info] of the data, the data itself not being sent. *)
Theorem screenshots_request (env : Env) (net : Net) (snap_id : string)
    (s : gmap string value) (data : option value) (files : option (list upload))
    (w : world) (req : Request) :
  backend_log (snd (snap_screenshots env net snap_id s data files w))
    = (backend_log w ++ [Api req])%list ->
  req_headers req !! "Accept" = Some "application/json" /\
  req_url req = SCREENSHOTS_QUERY_URL env snap_id /\
  req_json req = None /\
  match data, files with
  | Some d, Some (f :: fs) =>
      if truthy d then
        req_method req = Some "PUT" /\ req_data req = Some d /\
        req_files req
          = Some (FilesList
                    (map (fun f => (filename f, (filename f, stream f, mimetype f)))
                         (f :: fs)))
      else req_method req = Some "GET" /\ req_data req = Some d /\ req_files req = None
  | Some d, _ =>
      if truthy d then
        req_method req = Some "PUT" /\ req_data req = None /\
        exists info,
          py_getitem d "info" = Ret info /\
          req_files req = Some (FilesInfo ("", info))
      else req_method req = Some "GET" /\ req_data req = Some d /\ req_files req = None
  | None, _ => req_method req = Some "GET" /\ req_data req = None /\ req_files req = None
  end.
Proof.
  intros H.
  apply (logged_request_prepared env net (SnapScreenshots snap_id data files)) in H.
  cbn [prepare] in H.
  destruct (get_authorization_header env s) as [hs|e]; cbn in H; [|discriminate].
  destruct data as [d|]; cbn in H.
  - destruct (truthy d) eqn:Ht.
    + destruct files as [[|f fs]|]; cbn in H.
      * destruct (py_getitem d "info") as [info|e] eqn:Hi; cbn in H; [|discriminate].
        injection H as <-. cbn. rewrite lookup_insert_eq. repeat split. now exists info.
      * injection H as <-. cbn. rewrite lookup_insert_eq. now repeat split.
      * destruct (py_getitem d "info") as [info|e] eqn:Hi; cbn in H; [|discriminate].
        injection H as <-. cbn. rewrite lookup_insert_eq. repeat split. now exists info.
    + injection H as <-. cbn. rewrite lookup_insert_eq.
      destruct files as [[|f fs]|]; now repeat split.
  - injection H as <-. cbn. rewrite lookup_insert_eq.
    destruct files as [[|f fs]|]; now repeat split.
Qed.

Lemma screenshots_request_witness :
  req_method
    {| req_method := Some "GET"; req_url := SCREENSHOTS_QUERY_URL Samples.env "snap-1";
       req_headers :=
         <["Accept" := "application/json"]>
           {[ "Authorization" := "Macaroon root=root-1, discharge=discharge-1" ]};
       req_json := None; req_data := Some (VDict []); req_files := None |}
    = Some "GET".
Proof.
  destruct (screenshots_request Samples.env (Samples.answering Samples.account_ok)
              "snap-1" Samples.with_macaroons (Some (VDict []))
              (Some [{| filename := "a.png"; stream := "..."; mimetype := "image/png" |}])
              Samples.fresh
              {| req_method := Some "GET";
                 req_url := SCREENSHOTS_QUERY_URL Samples.env "snap-1";
                 req_headers :=
                   <["Accept" := "application/json"]>
                     {[ "Authorization" :=
                          "Macaroon root=root-1, discharge=discharge-1" ]};
                 req_json := None; req_data := Some (VDict []);
                 req_files := None |})
    as (_ & _ & _ & H); [reflexivity|].
  cbn in H. apply H.
Defined.

(** X10: a screenshots update whose data has no [info] and that comes
    without files raises [KeyError] for [info] before anything is sent. *)
Theorem screenshots_without_info (env : Env) (net : Net) (snap_id : string)
    (s : gmap string value) (fields : list (string * value))
    (files : option (list upload)) (w : world) (hs : gmap string string) :
  get_authorization_header env s = Ret hs ->
  fields <> [] ->
  dict_get "info" fields = None ->
  files = None \/ files = Some [] ->
  snap_screenshots env net snap_id s (Some (VDict fields)) files w
    = (Raise (KeyError "info"), w).
Proof.
  intros Hh Hf Hi Hfiles.
  change (perform env net (SnapScreenshots snap_id (Some (VDict fields)) files) s w
          = (Raise (KeyError "info"), w)).
  assert (Ht : truthy (VDict fields) = true)
    by (destruct fields; [contradiction|reflexivity]).
  rewrite perform_unfold. cbn [prepare]. rewrite Hh.
  destruct Hfiles as [-> | ->];
    cbn [mbind outcome_bind from_option default]; rewrite Ht;
    cbn [mbind outcome_bind py_getitem default];
    unfold id, py_getitem; now rewrite Hi.
Qed.

Lemma screenshots_without_info_witness :
  snap_screenshots Samples.env (Samples.answering Samples.account_ok) "snap-1"
    Samples.with_macaroons (Some (VDict [("title", VStr "t")])) None Samples.fresh
  = (Raise (KeyError "info"), Samples.fresh).
Proof.
  apply (screenshots_without_info Samples.env (Samples.answering Samples.account_ok)
           "snap-1" Samples.with_macaroons [("title", VStr "t")] None Samples.fresh
           {[ "Authorization" := "Macaroon root=root-1, discharge=discharge-1" ]});
    [reflexivity|discriminate|reflexivity|now left].
Defined.

(** X11: the snap id lookup sends the request of the snap info fetch
    and, on an ok response whose body is a dict, returns its [snap_id],
    raising [KeyError] when the body has none. *)
Theorem get_snap_id_result (env : Env) (net : Net) (snap_name : string)
    (s : gmap string value) (w : world) (req : Request) (r : Response)
    (fields : list (string * value)) :
  backend_log (snd (get_snap_id env net snap_name s w))
    = (backend_log w ++ [Api req])%list ->
  api_session net req = Ret r ->
  is_macaroon_expired env (headers r) = false ->
  ok r = true ->
  json r = inr (VDict fields) ->
  backend_log (snd (get_snap_info env net snap_name s w))
    = (backend_log w ++ [Api req])%list /\
  fst (get_snap_info env net snap_name s w) = Ret (VDict fields) /\
  fst (get_snap_id env net snap_name s w)
    = match dict_get "snap_id" fields with
      | Some snap_id => Ret snap_id
      | None => Raise (KeyError "snap_id")
      end.
Proof.
  intros H Hr Hx Hok Hj.
  apply (logged_request_prepared env net (GetSnapId snap_name)) in H.
  change (get_snap_id env net snap_name s w)
    with (perform env net (GetSnapId snap_name) s w).
  change (get_snap_info env net snap_name s w)
    with (perform env net (GetSnapInfo snap_name) s w).
  rewrite !perform_unfold. cbn [prepare] in *. rewrite H. cbn.
  rewrite Hr, Hx. rewrite (process_response_ok r (VDict fields) Hj Hok). cbn.
  now repeat split.
Qed.

Lemma get_snap_id_result_witness :
  fst (get_snap_id Samples.env (Samples.answering Samples.account_ok) "my-snap"
         Samples.with_macaroons Samples.fresh) = Raise (KeyError "snap_id").
Proof.
  destruct (get_snap_id_result Samples.env (Samples.answering Samples.account_ok)
              "my-snap" Samples.with_macaroons Samples.fresh
              {| req_method := Some "GET";
                 req_url := SNAP_INFO_URL Samples.env "my-snap";
                 req_headers :=
                   {[ "Authorization" :=
                        "Macaroon root=root-1, discharge=discharge-1" ]};
                 req_json := None; req_data := None; req_files := None |}
              Samples.account_ok
              [("username", VStr "bob"); ("displayname", VStr "Bob B");
               ("email", VStr "bob@example.com"); ("shared", VList [VStr "snap-a"])])
    as (_ & _ & H); [reflexivity..|].
  exact H.
Defined.

(** * Further properties of response processing *)

Lemma scan_error_list_passed_over (pre rest : list value) :
  Forall passed_over pre ->
  scan_error_list (pre ++ rest) = scan_error_list rest.
Proof.
  induction 1 as [|error pre Hp _ IH]; [reflexivity|].
  destruct Hp as (fields & code & -> & Hc & Hskip).
  change ((VDict fields :: pre) ++ rest)%list with (VDict fields :: (pre ++ rest))%list.
  cbn [scan_error_list]. unfold py_getitem. rewrite Hc.
  cbn [mbind outcome_bind].
  destruct Hskip as [Hne | (message & Hm & Hs & Hu)].
  - now rewrite Hne.
  - destruct (eq_str code "user-not-ready"); [|exact IH].
    rewrite Hm. cbn [mbind outcome_bind py_contains]. rewrite Hs.
    cbn [mbind outcome_bind py_contains]. now rewrite Hu.
Qed.

(** X12: [process_response] returns a body in two cases only: the
    response is ok, or the body is truthy and ["error_list" in body] is
    false; a body with an error list is never returned from a non-ok
    response. *)
Theorem process_response_returns (r : Response) (body : value) :
  process_response r = Ret body <->
  json r = inr body /\
  (ok r = true \/ (py_contains "error_list" body = Ret false /\ truthy body = true)).
Proof.
  split.
  - unfold process_response. destruct (json r) as [msg|b]; [discriminate|].
    destruct (ok r); cbn.
    + intros H. injection H as <-. split; [reflexivity|now left].
    + destruct (py_contains "error_list" b) as [[|]|e] eqn:Hc; cbn;
        [| |discriminate].
      * destruct (py_getitem b "error_list") as [l|e]; cbn; [|discriminate].
        destruct (py_iter l) as [errors|e]; cbn; [|discriminate].
        destruct (scan_error_list errors) as [[]|e]; cbn; discriminate.
      * destruct (truthy b) eqn:Ht; cbn; [|discriminate].
        intros H. injection H as <-. split; [reflexivity|]. right. now split.
  - intros (Hj & [Hok | (Hc & Ht)]).
    + now apply process_response_ok.
    + unfold process_response. rewrite Hj. destruct (ok r); cbn; [reflexivity|].
      rewrite Hc. cbn. now rewrite Ht.
Qed.

(** X13: on a non-ok response, an error list all of whose entries are
    passed over by the scan (no [user-not-ready] code, or one with an
    unknown message), the empty list included, is raised whole as
    [ApiResponseErrorList] with the status code of the response. *)
Theorem process_response_unknown_codes (r : Response)
    (items : list (string * value)) (errors : list value) :
  json r = inr (VDict items) ->
  ok r = false ->
  dict_get "error_list" items = Some (VList errors) ->
  Forall passed_over errors ->
  process_response r =
    Raise (ApiResponseErrorList "The api returned a list of errors"
             (status_code r) (VList errors)).
Proof.
  intros Hj Hok Hg Hp.
  apply (process_response_error_list r items (VList errors) errors Hj Hok Hg);
    [reflexivity|].
  rewrite <- (app_nil_r errors). now apply scan_error_list_passed_over.
Qed.

Lemma process_response_unknown_codes_witness :
  process_response
    (Samples.forbidden
       (VDict [("error_list",
                VList [VDict [("code", VStr "already-registered");
                              ("message", VStr "taken")]])]))
  = Raise (ApiResponseErrorList "The api returned a list of errors" 403
             (VList [VDict [("code", VStr "already-registered");
                            ("message", VStr "taken")]])).
Proof.
  apply (process_response_unknown_codes
           (Samples.forbidden
              (VDict [("error_list",
                       VList [VDict [("code", VStr "already-registered");
                                     ("message", VStr "taken")]])]))
           [("error_list",
             VList [VDict [("code", VStr "already-registered");
                           ("message", VStr "taken")]])]
           [VDict [("code", VStr "already-registered"); ("message", VStr "taken")]]);
    try reflexivity.
  constructor; [|constructor].
  exists [("code", VStr "already-registered"); ("message", VStr "taken")],
    (VStr "already-registered").
  repeat split. now left.
Defined.

(** X14: the first entry of the error list that the scan does not pass
    over decides: a [user-not-ready] entry whose message has the
    agreement phrase raises [AgreementNotSigned], also when it has the
    username phrase too, and one with the username phrase alone raises
    [MissingUsername], whatever entries follow. *)
Theorem process_response_user_not_ready (r : Response)
    (items : list (string * value)) (pre post : list value)
    (fields : list (string * value)) (message : string) :
  json r = inr (VDict items) ->
  ok r = false ->
  dict_get "error_list" items = Some (VList (pre ++ VDict fields :: post)) ->
  Forall passed_over pre ->
  dict_get "code" fields = Some (VStr "user-not-ready") ->
  dict_get "message" fields = Some (VStr message) ->
  substring_in "has not signed agreement" message
    || substring_in "missing store username" message = true ->
  process_response r =
    Raise (if substring_in "has not signed agreement" message
           then AgreementNotSigned else MissingUsername).
Proof.
  intros Hj Hok Hg Hp Hc Hm Hs.
  unfold process_response. rewrite Hj, Hok. cbn. rewrite Hg. cbn.
  rewrite (scan_error_list_passed_over pre (VDict fields :: post) Hp).
  destruct (substring_in "has not signed agreement" message) eqn:E.
  - now rewrite (scan_error_list_not_signed fields message post Hc Hm E).
  - cbn in Hs.
    now rewrite (scan_error_list_missing_username fields message post Hc Hm E Hs).
Qed.

Lemma process_response_user_not_ready_witness :
  process_response
    (Samples.forbidden
       (VDict [("error_list",
                VList [VDict [("code", VStr "other"); ("message", VStr "x")];
                       VDict [("code", VStr "user-not-ready");
                              ("message", VStr "Account is missing store username")];
                       VNone])]))
  = Raise MissingUsername.
Proof.
  apply (process_response_user_not_ready
           (Samples.forbidden
              (VDict [("error_list",
                       VList [VDict [("code", VStr "other"); ("message", VStr "x")];
                              VDict [("code", VStr "user-not-ready");
                                     ("message",
                                      VStr "Account is missing store username")];
                              VNone])]))
           [("error_list",
             VList [VDict [("code", VStr "other"); ("message", VStr "x")];
                    VDict [("code", VStr "user-not-ready");
                           ("message", VStr "Account is missing store username")];
                    VNone])]
           [VDict [("code", VStr "other"); ("message", VStr "x")]] [VNone]
           [("code", VStr "user-not-ready");
            ("message", VStr "Account is missing store username")]
           "Account is missing store username");
    try reflexivity.
  constructor; [|constructor].
  exists [("code", VStr "other"); ("message", VStr "x")], (VStr "other").
  repeat split. now left.
Defined.

(** X15: an entry of the error list without a [code], reached by the
    scan, makes [process_response] raise [KeyError] for [code] instead of
    an API error. *)
Theorem process_response_entry_without_code (r : Response)
    (items : list (string * value)) (pre post : list value)
    (fields : list (string * value)) :
  json r = inr (VDict items) ->
  ok r = false ->
  dict_get "error_list" items = Some (VList (pre ++ VDict fields :: post)) ->
  Forall passed_over pre ->
  dict_get "code" fields = None ->
  process_response r = Raise (KeyError "code").
Proof.
  intros Hj Hok Hg Hp Hc.
  unfold process_response. rewrite Hj, Hok. cbn. rewrite Hg. cbn.
  rewrite (scan_error_list_passed_over pre (VDict fields :: post) Hp).
  cbn. now rewrite Hc.
Qed.

Lemma process_response_entry_without_code_witness :
  process_response
    (Samples.forbidden (VDict [("error_list", VList [VDict [("message", VStr "x")]])]))
  = Raise (KeyError "code").
Proof.
  apply (process_response_entry_without_code
           (Samples.forbidden
              (VDict [("error_list", VList [VDict [("message", VStr "x")]])]))
           [("error_list", VList [VDict [("message", VStr "x")]])]
           [] [] [("message", VStr "x")]); try reflexivity.
  constructor.
Defined.

(** * Further properties of the login entry point *)

(** X16: on a session that is not authenticated, once a root macaroon
    is issued and its caveat id extracted, the login entry point fails
    on the store of the root, which asks the blueprint for [session]:
    an [AttributeError] comes out, the root is not stored and the
    provider is not asked; the backend was asked for one macaroon. *)
Theorem login_handler_cannot_store_root (env : Env) (net : Net) (next_url : string)
    (w : world) (root caveat_id : string) :
  is_authenticated (session w) = false ->
  request_macaroon net = Ret root ->
  get_caveat_id env root = Ret caveat_id ->
  login_handler env net next_url w = (Raise (AttributeError "session"), issued w).
Proof.
  intros Ha Hr Hc. now rewrite login_handler_unfold, Ha, Hr, Hc.
Qed.

Lemma login_handler_cannot_store_root_witness :
  login_handler Samples.env (Samples.answering Samples.account_ok) "/snaps"
    Samples.fresh
  = (Raise (AttributeError "session"), issued Samples.fresh).
Proof.
  apply (login_handler_cannot_store_root Samples.env
           (Samples.answering Samples.account_ok)
           "/snaps" Samples.fresh "root-1" "caveat-of-root-1"); reflexivity.
Defined.

(** X17: when the caveat id cannot be extracted from the issued root,
    the exception leaves the login entry point as it is, API errors
    included, which are not turned into 502 or 503 at this point, and
    the root is not stored. *)
Theorem login_handler_caveat_failure (env : Env) (net : Net) (next_url : string)
    (w : world) (root : string) (e : exn) :
  is_authenticated (session w) = false ->
  request_macaroon net = Ret root ->
  get_caveat_id env root = Raise e ->
  fst (login_handler env net next_url w) = Raise e /\
  session (snd (login_handler env net next_url w)) = session w.
Proof.
  intros Ha Hr Hc. rewrite login_handler_unfold, Ha, Hr, Hc. now cbn.
Qed.

Lemma login_handler_caveat_failure_witness :
  fst (login_handler Samples.env_without_caveat
         (Samples.answering Samples.account_ok) "/snaps" Samples.fresh)
    = Raise (ApiResponseError "no caveat" 401).
Proof.
  apply (login_handler_caveat_failure Samples.env_without_caveat
           (Samples.answering Samples.account_ok)
           "/snaps" Samples.fresh "root-1" (ApiResponseError "no caveat" 401));
    reflexivity.
Defined.

(** X18: the login entry point never writes the session; it returns,
    rather than raises, only on an authenticated session, and then with
    the redirect to the next URL and the state untouched; it never sends
    an API request, and asks for at most one macaroon. *)
Theorem login_handler_frame (env : Env) (net : Net) (next_url : string) (w : world) :
  let result := login_handler env net next_url w in
  session (snd result) = session w /\
  (forall r, fst result = Ret r ->
     is_authenticated (session w) = true /\ r = Redirect next_url /\ snd result = w) /\
  (backend_log (snd result) = backend_log w \/
   backend_log (snd result) = (backend_log w ++ [IssueMacaroon])%list).
Proof.
  intros result. subst result. rewrite login_handler_unfold.
  destruct (is_authenticated (session w)).
  - cbn. split; [reflexivity|]. split; [|now left].
    intros r H. now injection H as <-.
  - assert (E : exists e, match request_macaroon net with
                          | Ret root =>
                              match get_caveat_id env root with
                              | Ret _ => (Raise (AttributeError "session"), issued w)
                              | Raise e => (Raise e, issued w)
                              end
                          | Raise e => login_handler_except e (issued w)
                          end = (Raise e : outcome reply, issued w)).
    { destruct (request_macaroon net) as [root|e].
      - destruct (get_caveat_id env root) as [c|e]; now eexists.
      - rewrite login_handler_except_unfold.
        destruct (isinstance_ApiResponseError e); [now eexists|].
        destruct (isinstance_ApiCircuitBreaker e || isinstance_ApiError e);
          now eexists. }
    destruct E as [e ->]. cbn. split; [reflexivity|]. split; [|now right].
    intros r H. discriminate H.
Qed.

(** X19: an exception of macaroon issuance that is not an [ApiError]
    leaves the login entry point as it is, and nothing is stored. *)
Theorem login_handler_other_failure (env : Env) (net : Net) (next_url : string)
    (w : world) (e : exn) :
  is_authenticated (session w) = false ->
  request_macaroon net = Raise e ->
  isinstance_ApiError e = false ->
  login_handler env net next_url w = (Raise e, issued w).
Proof.
  intros Ha Hr He. rewrite login_handler_unfold, Ha, Hr.
  rewrite login_handler_except_unfold.
  destruct e; try discriminate He; reflexivity.
Qed.

Lemma login_handler_other_failure_witness :
  login_handler Samples.env (Samples.failing (ValueError "bad macaroon")) "/snaps"
    Samples.fresh
  = (Raise (ValueError "bad macaroon"), issued Samples.fresh).
Proof.
  apply (login_handler_other_failure Samples.env
           (Samples.failing (ValueError "bad macaroon")) "/snaps" Samples.fresh);
    reflexivity.
Defined.
